(** * l10n.py: locale-list parsing and per-locale build fan-out

    A shallow embedding of [ParseLocalesFile] and of the [L10nMixin]
    scheduler mixin of [src/l10n.py], followed by the properties of the
    specification that were checked against it.

    Python values are modelled as follows.
    - [str] is [string]; the whitespace of [str.strip] and [str.split] is
      the six ASCII characters tab, LF, VT, FF, CR and space
      ([Ascii.is_space]).
    - a [dict] keyed by strings is a [gmap string _]; the locales mapping
      is a [gmap string (list string)] (the values are Python lists, kept
      as lists: order and duplicates of a line's tokens are preserved).
    - an exception is the [Raise] alternative of [Result].
    - the host (Twisted and buildbot: logging, the page fetch, the build
      database) is a record [World] threaded through the effectful
      functions. *)

From Stdlib Require Import Ascii String.
From stdpp Require Import gmap strings list fin_maps.

Open Scope string_scope.

(** ** Python string primitives *)

Module PyStr.

(** [s.lstrip()] *)
Fixpoint lstrip (s : string) : string :=
  match s with
  | String c s' => if Ascii.is_space c then lstrip s' else s
  | EmptyString => EmptyString
  end.

(** [s.rstrip()] *)
Definition rstrip (s : string) : string :=
  String.rev (lstrip (String.rev s)).

(** [s.strip()] *)
Definition strip (s : string) : string := rstrip (lstrip s).

(** The fields of [s] between the characters satisfying [sep]; empty
    fields are kept, so the result has one more element than [s] has
    separators. *)
Fixpoint fields (sep : ascii → bool) (s : string) : list string :=
  match s with
  | EmptyString => [EmptyString]
  | String c s' =>
      if sep c then EmptyString :: fields sep s'
      else match fields sep s' with
           | f :: fs => String c f :: fs
           | [] => [String c EmptyString]
           end
  end.

Definition is_newline (c : ascii) : bool := bool_decide (c = "010"%char).

(** [s.split('\n')] *)
Definition split_nl (s : string) : list string := fields is_newline s.

Definition nonempty (s : string) : bool :=
  match s with EmptyString => false | String _ _ => true end.

(** [s.split()]: the maximal runs of non-whitespace characters. *)
Definition split (s : string) : list string :=
  List.filter nonempty (fields Ascii.is_space s).

(** [s.startswith(p)] *)
Definition startswith (s p : string) : bool := String.prefix p s.

(** Every character of [s] is whitespace. *)
Fixpoint all_space (s : string) : bool :=
  match s with
  | EmptyString => true
  | String c s' => Ascii.is_space c && all_space s'
  end.

End PyStr.

(** ** Exceptions and results *)

Inductive exn : Type :=
| IndexError
| AssertionError
| KeyError (key : string)
| TypeError
| ValueError
| FetchError (why : string)
| DbError (why : string).

Inductive Result (A : Type) : Type :=
| Ok (a : A)
| Raise (e : exn).
Arguments Ok {A} a.
Arguments Raise {A} e.

Definition is_ok {A} (r : Result A) : bool :=
  match r with Ok _ => true | Raise _ => false end.

(** ** ParseLocalesFile *)

Abbreviation Locales := (gmap string (list string)).

(** The inner loop
[[
    for plat in buildPlatforms:
        if plat not in locales[locale]:
            locales[locale].append(plat)
]]
    on the list [cur] stored at [locales[locale]]. *)
Fixpoint append_new (cur buildPlatforms : list string) : list string :=
  match buildPlatforms with
  | [] => cur
  | plat :: rest =>
      if bool_decide (plat ∈ cur) then append_new cur rest
      else append_new (cur ++ [plat]) rest
  end.

(** The body of [for line in data.split('\n')], from the dictionary built
    so far.  [splitLine[0]] raises [IndexError] when the line has no
    token. *)
Fixpoint parse_lines (lines : list string) (locales : Locales)
  : Result Locales :=
  match lines with
  | [] => Ok locales
  | line :: rest =>
      match PyStr.split line with
      | [] => Raise IndexError
      | locale :: buildPlatforms =>
          match locales !! locale with
          | Some cur =>
              parse_lines rest
                (<[locale := append_new cur buildPlatforms]> locales)
          | None =>
              parse_lines rest (<[locale := buildPlatforms]> locales)
          end
      end
  end.

Definition ParseLocalesFile (data : string) : Result Locales :=
  let data := PyStr.strip data in
  parse_lines (PyStr.split_nl data) ∅.

(** ** The host: logging, page fetch, build database

    Everything below the mixin is supplied by Twisted and buildbot.  The
    model records each call the mixin makes and nothing else: [web] is
    what a fetch of a URL yields (the page, or the failure its Deferred
    errbacks with), [fetched] the [getPage] calls made, [sourcestamps] the
    rows added by [db.get_sourcestampid] and [buildsets] the
    [create_buildset] calls, oldest first. *)

(** [buildbot.process.properties.Properties]: name ↦ (value, source). *)
Abbreviation Properties := (gmap string (string * string)).

Record SourceStamp : Type := mkSourceStamp {
  ss_branch : option string;
  ss_revision : option string
}.

Record Buildset : Type := mkBuildset {
  bs_ssid : nat;
  bs_reason : option string;
  bs_props : Properties
}.

Record World : Type := mkWorld {
  web : string → Result string;
  log : list string;
  fetched : list (string * nat);
  sourcestamps : list SourceStamp;
  buildsets : list Buildset
}.

(** A Deferred, observed once it has fired: its result or its failure. *)
Inductive Deferred (A : Type) : Type :=
| Fired (a : A)
| Failed (e : exn).
Arguments Fired {A} a.
Arguments Failed {A} e.

Module Host.

(** [log.msg(s)] *)
Definition log_msg (s : string) (w : World) : World :=
  mkWorld (web w) (log w ++ [s]) (fetched w) (sourcestamps w) (buildsets w).

(** [getPage(url, timeout=t)] *)
Definition getPage (url : string) (timeout : nat) (w : World)
  : Deferred string * World :=
  (match web w url with Ok page => Fired page | Raise e => Failed e end,
   mkWorld (web w) (log w) (fetched w ++ [(url, timeout)])
     (sourcestamps w) (buildsets w)).

(** [db.get_sourcestampid(ss, t)]: stores [ss], returns its row id. *)
Definition get_sourcestampid (ss : SourceStamp) (w : World) : nat * World :=
  (S (length (sourcestamps w)),
   mkWorld (web w) (log w) (fetched w) (sourcestamps w ++ [ss])
     (buildsets w)).

(** [self.create_buildset(ssid, reason, t, props=props)] *)
Definition create_buildset (ssid : nat) (reason : option string)
    (props : Properties) (w : World) : World :=
  mkWorld (web w) (log w) (fetched w) (sourcestamps w)
    (buildsets w ++ [mkBuildset ssid reason props]).

(** [Properties.updateFromProperties(other)]: [dict.update]. *)
Definition updateFromProperties (self other : Properties) : Properties :=
  other ∪ self.

(** [Properties.update(dict, source)] *)
Definition update (self : Properties) (dict : gmap string string)
    (source : string) : Properties :=
  ((λ v, (v, source)) <$> dict) ∪ self.

(** [Properties.setProperty(name, value, source)] *)
Definition setProperty (self : Properties) (name value source : string)
  : Properties :=
  <[name := (value, source)]> self.

(** [d.addCallback(f)] for a callback with effects on the host. *)
Definition addCallback {A B} (d : Deferred A)
    (f : A → World → Deferred B * World) (w : World)
  : Deferred B * World :=
  match d with
  | Fired a => f a w
  | Failed e => (Failed e, w)
  end.

(** [d.addCallback(f)] for a callback without effects; an exception
    raised by [f] becomes the failure of the Deferred. *)
Definition addCallback_pure {A B} (d : Deferred A) (f : A → Result B)
  : Deferred B :=
  match d with
  | Fired a => match f a with Ok b => Fired b | Raise e => Failed e end
  | Failed e => Failed e
  end.

End Host.

(** ** Python truthiness and [%] formatting *)

(** [if s:] for [s] a string or [None]. *)
Definition truthy_str (s : option string) : bool :=
  match s with
  | Some (String _ _) => true
  | _ => false
  end.

(** [if d:] for [d] a dict or [None]. *)
Definition truthy_dict (d : option Locales) : bool :=
  match d with
  | Some m => bool_decide (m ≠ ∅)
  | None => false
  end.

(** [a or b] *)
Definition py_or (a : option string) (b : string) : string :=
  match a with
  | Some (String c s) => String c s
  | _ => b
  end.

(** *** [fmt % {'revision': revision}]

    The [%] operator of a Python 2 byte string with a one-entry dict on
    its right, after [PyString_Format]: a conversion is
    [%], an optional [(key)], flags, a width, a precision, a length
    modifier and the conversion character.  The template and [revision]
    are byte strings ([str], not [unicode]), so the numeric conversions
    raise [TypeError]; [PY_SSIZE_T_MAX] is that of a 64-bit build, and a
    width is padded to however large it is. *)

(** The object a conversion reads: the dict itself, or, after a
    [(key)], the string found under the key. *)
Inductive pyval : Type :=
| VDict
| VStr (s : string).

(** [getnextarg]'s state: the object and whether it was handed out. *)
Record argst : Type := mkArg {
  arg_cur : pyval;
  arg_used : bool
}.

(** The [-] flag, the width and the precision of a conversion. *)
Record spec : Type := mkSpec {
  sp_ljust : bool;
  sp_width : option N;
  sp_prec : option N
}.

Inductive fmt_state : Type :=
| FLit (a : argst)
| FPct (a : argst)
| FKey (a : argst) (depth : nat) (k : string)
| FFlags (a : argst) (ljust : bool)
| FWidth (a : argst) (ljust : bool) (w : N)
| FDot (a : argst) (ljust : bool) (w : option N)
| FPrec (a : argst) (ljust : bool) (w : option N) (p : N)
| FLen (a : argst) (sp : spec).

(** What one character of the format does. *)
Inductive step_result : Type :=
| Next (st : fmt_state)
| Emit (out : string) (st : fmt_state)
| Err (e : exn).

Definition PY_SSIZE_T_MAX : N := 9223372036854775807.
Definition INT_MAX : N := 2147483647.

Definition digit_of (c : ascii) : option N :=
  let n := N_of_ascii c in
  if (48 <=? n)%N && (n <=? 57)%N then Some (n - 48)%N else None.

Definition char_in (c : ascii) (cs : list ascii) : bool :=
  bool_decide (c ∈ cs).

Definition hex_digit (n : N) : ascii :=
  if (n <? 10)%N then ascii_of_N (48 + n) else ascii_of_N (87 + n).

Definition quote1 : ascii := "039"%char.
Definition quote2 : ascii := "034"%char.
Definition backslash : ascii := "092"%char.

(** One character of [repr(s)], inside the quotes. *)
Definition repr_char (quote c : ascii) : string :=
  if bool_decide (c = quote) || bool_decide (c = backslash)
  then String backslash (String c EmptyString)
  else if bool_decide (c = "009"%char) then String backslash "t"
  else if bool_decide (c = "010"%char) then String backslash "n"
  else if bool_decide (c = "013"%char) then String backslash "r"
  else
    let n := N_of_ascii c in
    if (n <? 32)%N || (127 <=? n)%N
    then String backslash
           (String "x"
              (String (hex_digit (n / 16))
                 (String (hex_digit (n mod 16)) EmptyString)))
    else String c EmptyString.

Fixpoint repr_body (quote : ascii) (s : string) : string :=
  match s with
  | EmptyString => EmptyString
  | String c s' => repr_char quote c ++ repr_body quote s'
  end.

Fixpoint str_mem (c : ascii) (s : string) : bool :=
  match s with
  | EmptyString => false
  | String c' s' => bool_decide (c = c') || str_mem c s'
  end.

(** [repr(s)] of a byte string. *)
Definition str_repr (s : string) : string :=
  let quote :=
    if str_mem quote1 s && negb (str_mem quote2 s) then quote2 else quote1 in
  String quote (repr_body quote s ++ String quote EmptyString).

(** [str(v)] and [repr(v)] *)
Definition py_str (revision : string) (v : pyval) : string :=
  match v with
  | VStr s => s
  | VDict => "{'revision': " ++ str_repr revision ++ "}"
  end.

Definition py_repr (revision : string) (v : pyval) : string :=
  match v with
  | VStr s => str_repr s
  | VDict => "{'revision': " ++ str_repr revision ++ "}"
  end.

Fixpoint str_take (n : nat) (s : string) : string :=
  match n, s with
  | S n', String c s' => String c (str_take n' s')
  | _, _ => EmptyString
  end.

Fixpoint spaces (n : nat) : string :=
  match n with
  | O => EmptyString
  | S n' => String " "%char (spaces n')
  end.

(** [if (prec >= 0 && len > prec) len = prec] *)
Definition truncate (sp : spec) (s : string) : string :=
  match sp_prec sp with
  | Some p =>
      if (p <? N.of_nat (String.length s))%N then str_take (N.to_nat p) s
      else s
  | None => s
  end.

(** The padding to the width, on the left or, with [-], on the right. *)
Definition pad (sp : spec) (s : string) : string :=
  match sp_width sp with
  | Some w =>
      let len := N.of_nat (String.length s) in
      if (len <? w)%N then
        if sp_ljust sp then s ++ spaces (N.to_nat (w - len))
        else spaces (N.to_nat (w - len)) ++ s
      else s
  | None => s
  end.

(** The conversion character [c], the specification being read. *)
Definition convert (revision : string) (a : argst) (sp : spec) (c : ascii)
  : step_result :=
  if bool_decide (c = "%"%char) then Emit (pad sp "%") (FLit a)
  else if arg_used a then Err TypeError
  else
    let v := arg_cur a in
    let a' := mkArg v true in
    if bool_decide (c = "s"%char) then
      Emit (pad sp (truncate sp (py_str revision v))) (FLit a')
    else if bool_decide (c = "r"%char) then
      Emit (pad sp (truncate sp (py_repr revision v))) (FLit a')
    else if char_in c ["i"; "d"; "u"; "o"; "x"; "X";
                       "e"; "E"; "f"; "F"; "g"; "G"]%char then
      Err TypeError
    else if bool_decide (c = "c"%char) then
      match v with
      | VStr (String ch EmptyString) =>
          Emit (pad sp (String ch EmptyString)) (FLit a')
      | _ => Err TypeError
      end
    else Err ValueError.

(** After the precision: a length modifier or the conversion. *)
Definition after_prec (revision : string) (a : argst) (sp : spec)
    (c : ascii) : step_result :=
  if char_in c ["h"; "l"; "L"]%char then Next (FLen a sp)
  else convert revision a sp c.

(** After the width: a precision, or on to [after_prec]. *)
Definition after_width (revision : string) (a : argst) (ljust : bool)
    (w : option N) (c : ascii) : step_result :=
  if bool_decide (c = "."%char) then Next (FDot a ljust w)
  else after_prec revision a (mkSpec ljust w None) c.

(** A character where a flag may stand: a flag, the start of the width
    ([*] wants an int and gets the dict or the string), or on to
    [after_width]. *)
Definition flag_char (revision : string) (a : argst) (ljust : bool)
    (c : ascii) : step_result :=
  if bool_decide (c = "-"%char) then Next (FFlags a true)
  else if char_in c ["+"; " "; "#"; "0"]%char then Next (FFlags a ljust)
  else if bool_decide (c = "*"%char) then Err TypeError
  else match digit_of c with
       | Some d => Next (FWidth a ljust d)
       | None => after_width revision a ljust None c
       end.

Definition step (revision : string) (st : fmt_state) (c : ascii)
  : step_result :=
  match st with
  | FLit a =>
      if bool_decide (c = "%"%char) then Next (FPct a)
      else Emit (String c EmptyString) (FLit a)
  | FPct a =>
      if bool_decide (c = "("%char) then Next (FKey a 1 EmptyString)
      else flag_char revision a false c
  | FKey a depth k =>
      if bool_decide (c = ")"%char) then
        match depth with
        | S (S d) => Next (FKey a (S d) (k ++ String c EmptyString))
        | _ =>
            if bool_decide (k = "revision")
            then Next (FFlags (mkArg (VStr revision) false) false)
            else Err (KeyError k)
        end
      else if bool_decide (c = "("%char) then
        Next (FKey a (S depth) (k ++ String c EmptyString))
      else Next (FKey a depth (k ++ String c EmptyString))
  | FFlags a ljust => flag_char revision a ljust c
  | FWidth a ljust w =>
      match digit_of c with
      | Some d =>
          if ((PY_SSIZE_T_MAX - d) / 10 <? w)%N then Err ValueError
          else Next (FWidth a ljust (w * 10 + d))
      | None => after_width revision a ljust (Some w) c
      end
  | FDot a ljust w =>
      if bool_decide (c = "*"%char) then Err TypeError
      else match digit_of c with
           | Some d => Next (FPrec a ljust w d)
           | None => after_prec revision a (mkSpec ljust w (Some 0%N)) c
           end
  | FPrec a ljust w p =>
      match digit_of c with
      | Some d =>
          if ((INT_MAX - d) / 10 <? p)%N then Err ValueError
          else Next (FPrec a ljust w (p * 10 + d))
      | None => after_prec revision a (mkSpec ljust w (Some p)) c
      end
  | FLen a sp => convert revision a sp c
  end.

(** The format from state [st] on; a format that ends inside a
    conversion is an incomplete format, a [ValueError]. *)
Fixpoint pct_format_go (revision : string) (st : fmt_state) (fmt : string)
  : Result string :=
  match fmt with
  | EmptyString =>
      match st with FLit _ => Ok EmptyString | _ => Raise ValueError end
  | String c rest =>
      match step revision st c with
      | Next st' => pct_format_go revision st' rest
      | Emit out st' =>
          match pct_format_go revision st' rest with
          | Ok r => Ok (out ++ r)
          | Raise e => Raise e
          end
      | Err e => Raise e
      end
  end.

Definition pct_format (fmt revision : string) : Result string :=
  pct_format_go revision (FLit (mkArg VDict false)) fmt.

(** ** L10nMixin *)

Module L10nMixin.

(** The attributes [__init__] assigns. *)
Record self_t : Type := mkSelf {
  branch : option string;
  baseTag : string;
  localesURL : string;
  locales : option Locales;
  platform : string
}.

(** The arguments of [__init__]. *)
Record init_args : Type := mkArgs {
  arg_platform : string;
  arg_repo : string;
  arg_branch : option string;
  arg_baseTag : string;
  arg_localesFile : string;
  arg_locales : option Locales;
  arg_localesURL : option string
}.

(** The defaults of the keyword arguments. *)
Definition default_args (platform : string) : init_args :=
  mkArgs platform "https://hg.mozilla.org/" None "default"
    "browser/locales/all-locales" None None.

Definition supported_platforms : list string :=
  ["linux"; "linux64"; "win32"; "win64";
   "macosx"; "macosx64"; "osx"; "osx64"].

(** The two [startswith] rewrites at the end of [__init__]. *)
Definition normalize_platform (platform : string) : string :=
  let platform :=
    if PyStr.startswith platform "macosx" then "osx" else platform in
  if PyStr.startswith platform "linux" then "linux" else platform.

Definition __init__ (a : init_args) : Result self_t :=
  let url :=
    if truthy_str (arg_localesURL a) then
      match arg_localesURL a with
      | Some u => Ok u
      | None => Ok EmptyString
      end
    else
      match arg_branch a with
      | None => Raise AssertionError
      | Some b =>
          Ok (arg_repo a ++ b ++ "/raw-file/%(revision)s/"
              ++ arg_localesFile a)
      end in
  match url with
  | Raise e => Raise e
  | Ok url =>
      if bool_decide (arg_platform a ∈ supported_platforms) then
        Ok (mkSelf (arg_branch a) (arg_baseTag a) url (arg_locales a)
              (normalize_platform (arg_platform a)))
      else Raise AssertionError
  end.

(** What [getLocales] returns: the configured mapping itself, or a
    Deferred. *)
Inductive locales_result : Type :=
| Sync (m : Locales)
| Async (d : Deferred Locales).

(** [defer.maybeDeferred(f, ...)], from the outcome of the call. *)
Definition maybeDeferred (r : Result locales_result) : Deferred Locales :=
  match r with
  | Ok (Sync m) => Fired m
  | Ok (Async d) => d
  | Raise e => Failed e
  end.

Section Methods.

Variable self : self_t.
(** [self.properties], an attribute of the host scheduler class. *)
Variable properties : Properties.

(** The property set of one locale's build set. *)
Definition locale_props (set_props : option Properties)
    (locale : string) : Properties :=
  let props : Properties := ∅ in
  let props := Host.updateFromProperties props properties in
  let props :=
    match set_props with
    | Some sp => Host.updateFromProperties props sp
    | None => props
    end in
  let props := Host.update props {["locale" := locale]} "Scheduler" in
  let props := Host.setProperty props "en_revision" (baseTag self)
                 "L10nMixin" in
  Host.setProperty props "l10n_revision" (baseTag self) "L10nMixin".

(** Is the body of the loop run to its end for this entry, or left by
    one of the two [continue]s? *)
Definition repacked (locale : string) (plats : list string) : bool :=
  if bool_decide (locale = "en-US") then false
  else if bool_decide (0 < length plats) then
    if bool_decide (platform self ∉ plats) then false else true
  else true.

(** One iteration of [for locale in locales], with [plats] the value
    of [locales[locale]]. *)
Definition loop_body (reason : option string)
    (set_props : option Properties) (w : World)
    (entry : string * list string) : World :=
  let '(locale, plats) := entry in
  if repacked locale plats then
    let props := locale_props set_props locale in
    let w := Host.log_msg ("Submitted " ++ locale ++ " locale") w in
    let ss := mkSourceStamp (branch self) None in
    let '(ssid, w) := Host.get_sourcestampid ss w in
    Host.create_buildset ssid reason props w
  else w.

(** [for locale in locales] visits every key once, in an order Python
    leaves unspecified; the model takes the order of [map_to_list]. *)
Definition _cbLoadedLocales (locales : Locales) (reason : option string)
    (set_props : option Properties) (w : World) : World :=
  let w := Host.log_msg "L10nMixin:: loaded locales' list" w in
  fold_left (loop_body reason set_props) (map_to_list locales) w.

Definition getLocales (revision : option string) (w : World)
  : Result locales_result * World :=
  if truthy_dict (locales self) then
    let w := Host.log_msg
      "L10nMixin.getLocales():: The user has set a list of locales" w in
    (match locales self with
     | Some m => Ok (Sync m)
     | None => Ok (Sync ∅)
     end, w)
  else
    match pct_format (localesURL self) (py_or revision (baseTag self)) with
    | Raise e => (Raise e, w)
    | Ok localePage =>
        let w := Host.log_msg
          ("L10nMixin:: Getting locales from: " ++ localePage) w in
        let '(d, w) := Host.getPage localePage (5 * 60) w in
        (Ok (Async (Host.addCallback_pure d ParseLocalesFile)), w)
    end.

(** [self.parent.db.runInteraction(self._cbLoadedLocales, locales,
    reason, set_props)], on a database whose calls succeed; the run on a
    database whose calls may raise is [L10nMixinDb.runInteraction_cb]. *)
Definition runInteraction_cb (reason : option string)
    (set_props : option Properties) (locales : Locales) (w : World)
  : Deferred unit * World :=
  (Fired tt, _cbLoadedLocales locales reason set_props w).

Definition createL10nBuilds (revision reason : option string)
    (set_props : option Properties) (w : World)
  : Deferred unit * World :=
  let w :=
    Host.log_msg "L10nMixin:: A list of locales is going to be requested"
      w in
  let '(r, w) := getLocales revision w in
  let d := maybeDeferred r in
  Host.addCallback d (runInteraction_cb reason set_props) w.

End Methods.

End L10nMixin.

(** ** L10nMixin on a database whose calls may raise

    [db.get_sourcestampid] and [create_buildset] belong to the host and
    may raise.  [DbFaults] says, for each such call and the state it is
    made in, whether it raises and what; an exception leaves the loop
    and [runInteraction] hands it to the Deferred.  The calls made before
    it stay recorded. *)

Record DbFaults : Type := mkFaults {
  stamp_fault : SourceStamp → World → option exn;
  buildset_fault : Buildset → World → option exn
}.

Definition no_faults : DbFaults := mkFaults (λ _ _, None) (λ _ _, None).

Module L10nMixinDb.

Section Methods.

Variable F : DbFaults.
Variable self : L10nMixin.self_t.
Variable properties : Properties.

(** One iteration of the loop: the exception that ended it, if any, and
    the state it leaves. *)
Definition loop_body (reason : option string)
    (set_props : option Properties) (w : World)
    (entry : string * list string) : option exn * World :=
  let '(locale, plats) := entry in
  if L10nMixin.repacked self locale plats then
    let props := L10nMixin.locale_props self properties set_props locale in
    let w := Host.log_msg ("Submitted " ++ locale ++ " locale") w in
    let ss := mkSourceStamp (L10nMixin.branch self) None in
    match stamp_fault F ss w with
    | Some e => (Some e, w)
    | None =>
        let '(ssid, w) := Host.get_sourcestampid ss w in
        match buildset_fault F (mkBuildset ssid reason props) w with
        | Some e => (Some e, w)
        | None => (None, Host.create_buildset ssid reason props w)
        end
    end
  else (None, w).

(** The [for] loop: the first exception ends it. *)
Fixpoint loop (reason : option string) (set_props : option Properties)
    (entries : list (string * list string)) (w : World)
  : option exn * World :=
  match entries with
  | [] => (None, w)
  | entry :: rest =>
      match loop_body reason set_props w entry with
      | (None, w') => loop reason set_props rest w'
      | (Some e, w') => (Some e, w')
      end
  end.

Definition _cbLoadedLocales (locales : Locales) (reason : option string)
    (set_props : option Properties) (w : World) : option exn * World :=
  let w := Host.log_msg "L10nMixin:: loaded locales' list" w in
  loop reason set_props (map_to_list locales) w.

Definition runInteraction_cb (reason : option string)
    (set_props : option Properties) (locales : Locales) (w : World)
  : Deferred unit * World :=
  match _cbLoadedLocales locales reason set_props w with
  | (None, w') => (Fired tt, w')
  | (Some e, w') => (Failed e, w')
  end.

Definition createL10nBuilds (revision reason : option string)
    (set_props : option Properties) (w : World)
  : Deferred unit * World :=
  let w :=
    Host.log_msg "L10nMixin:: A list of locales is going to be requested"
      w in
  let '(r, w) := L10nMixin.getLocales self revision w in
  let d := L10nMixin.maybeDeferred r in
  Host.addCallback d (runInteraction_cb reason set_props) w.

End Methods.

End L10nMixinDb.

(** [self] as it would be without configured locales. *)
Definition without_locales (self : L10nMixin.self_t) : L10nMixin.self_t :=
  L10nMixin.mkSelf (L10nMixin.branch self) (L10nMixin.baseTag self)
    (L10nMixin.localesURL self) None (L10nMixin.platform self).


Module TriggerableL10n.


End TriggerableL10n.

(** The locale ids of the build sets in [bs], in submission order. *)
Definition submitted_locales (bs : list Buildset) : list string :=
  omap (λ b, fst <$> bs_props b !! "locale") bs.

Definition nl : string := String "010"%char EmptyString.

(** The lines [ParseLocalesFile] iterates over. *)
Definition lines_of (data : string) : list string :=
  PyStr.split_nl (PyStr.strip data).

(** The locale id of a line: its first token, if it has one. *)
Definition key_of (line : string) : option string :=
  head (PyStr.split line).

(** The list stored at [locales[locale]] after a line [locale :: bp]. *)
Definition entry_after (m : Locales) (locale : string) (bp : list string)
  : list string :=
  match m !! locale with
  | Some cur => append_new cur bp
  | None => bp
  end.

(** The locales whose entry passes both tests of the fan-out loop, in
    the order the loop meets them. *)
Definition kept (self : L10nMixin.self_t) (locales : Locales) : list string :=
  (List.filter (λ e, L10nMixin.repacked self e.1 e.2)
     (map_to_list locales)).*1.

Definition world0 (web : string → Result string) : World :=
  mkWorld web [] [] [] [].

(** A server that never answers. *)
Definition no_web (url : string) : Result string :=
  Raise (FetchError "timeout").

(** A server that has one locales file. *)
Definition one_page (url : string) : Result string :=
  if bool_decide (url = "http://h/default/all-locales")
  then Ok ("fr" ++ nl ++ "ja linux")
  else Raise (FetchError "404").

(** The mapping [{en-US: [], fr: [], ja: [linux]}]. *)
Definition ex_locales : Locales :=
  <["ja" := ["linux"]]> (<["fr" := []]> {["en-US" := []]}).

Definition ex_self (locales : option Locales) (platform : string)
  : L10nMixin.self_t :=
  L10nMixin.mkSelf None "default"
    "http://h/%(revision)s/all-locales" locales platform.

(** The arguments from which [__init__] builds [ex_self]. *)
Definition ex_args (locales : option Locales) (platform : string)
  : L10nMixin.init_args :=
  L10nMixin.mkArgs platform "u" None "default" "f" locales
    (Some "http://h/%(revision)s/all-locales").

(** Extra properties that try to set the three keys of the fan-out. *)
Definition ex_set_props : Properties :=
  <["locale" := ("xx", "Trigger")]>
    (<["en_revision" := ("tip", "Trigger")]>
       {["l10n_revision" := ("tip", "Trigger")]}).

(** Does some character of [s] satisfy [p]? *)
Fixpoint has_char (p : ascii → bool) (s : string) : bool :=
  match s with
  | EmptyString => false
  | String c s' => p c || has_char p s'
  end.

Definition is_pct (c : ascii) : bool := bool_decide (c = "%"%char).

(** The platform names an [L10nMixin] can hold after [__init__]. *)
Definition normalized_platforms : list string :=
  ["linux"; "win32"; "win64"; "osx"; "osx64"].


(** A template whose key is not [revision]. *)
Definition bad_key_self : L10nMixin.self_t :=
  L10nMixin.mkSelf None "default" "http://h/%(rev)s/all-locales" None "osx".

(** The build sets submitted for the locales [ks], in order, when the
    first source stamp created gets the row id [first_id]. *)
Definition new_buildsets (self : L10nMixin.self_t) (properties : Properties)
    (reason : option string) (set_props : option Properties)
    (first_id : nat) (ks : list string) : list Buildset :=
  zip_with
    (λ ssid locale,
       mkBuildset ssid reason
         (L10nMixin.locale_props self properties set_props locale))
    (seq first_id (length ks)) ks.

(** A server whose locales file has a blank line. *)
Definition blank_page (url : string) : Result string :=
  Ok ("fr" ++ nl ++ nl ++ "de").

(** * Properties *)

(** ** Strings *)

Lemma fields_not_nil sep s : PyStr.fields sep s ≠ [].
Proof.
  destruct s as [|c s]; simpl; [done|].
  destruct (sep c); [done|]. by destruct (PyStr.fields sep s).
Qed.

Lemma split_nil_iff s : PyStr.split s = [] ↔ PyStr.all_space s = true.
Proof.
  unfold PyStr.split. induction s as [|c s IH]; simpl; [done|].
  destruct (Ascii.is_space c); simpl; [exact IH|].
  destruct (PyStr.fields Ascii.is_space s); simpl; split; discriminate.
Qed.

Lemma split_token_nonempty s t : t ∈ PyStr.split s → t ≠ EmptyString.
Proof.
  unfold PyStr.split. rewrite list_elem_of_In, filter_In.
  intros [_ Hne] ->. discriminate.
Qed.

(** ** The parsing loop *)

Lemma append_new_elem cur bp p :
  p ∈ append_new cur bp ↔ p ∈ cur ∨ p ∈ bp.
Proof.
  revert cur. induction bp as [|x bp IH]; intros cur; simpl.
  - rewrite elem_of_nil. tauto.
  - case_bool_decide as Hx; rewrite IH, ?elem_of_app,
      ?list_elem_of_singleton, elem_of_cons.
    + split; [tauto|]. intros [?|[->|?]]; [by left|by left|by right].
    + tauto.
Qed.

Lemma append_new_nil bp : ∀ p, p ∈ append_new [] bp ↔ p ∈ bp.
Proof. intros p. rewrite append_new_elem, elem_of_nil. tauto. Qed.

Lemma entry_after_elem m k bp p :
  p ∈ entry_after m k bp ↔ (∃ cur, m !! k = Some cur ∧ p ∈ cur) ∨ p ∈ bp.
Proof.
  unfold entry_after. destruct (m !! k) as [cur|].
  - rewrite append_new_elem. split.
    + intros [?|?]; [left; by exists cur|by right].
    + intros [(c & [= <-] & ?)|?]; [by left|by right].
  - split; [by right|]. intros [(c & [=] & _)|?]. done.
Qed.

Lemma parse_lines_cons line rest m k bp :
  PyStr.split line = k :: bp →
  parse_lines (line :: rest) m
  = parse_lines rest (<[k := entry_after m k bp]> m).
Proof.
  intros H. simpl. rewrite H. unfold entry_after. by destruct (m !! k).
Qed.

Lemma parse_lines_blank lines m :
  Exists (λ l, PyStr.split l = []) lines →
  parse_lines lines m = Raise IndexError.
Proof.
  intros H. revert m. induction H as [line rest H|line rest H IH]; intros m.
  - simpl. by rewrite H.
  - simpl. destruct (PyStr.split line) as [|k bp]; [done|].
    destruct (m !! k); apply IH.
Qed.

Lemma parse_lines_total lines m :
  Forall (λ l, PyStr.split l ≠ []) lines →
  ∃ m', parse_lines lines m = Ok m'.
Proof.
  intros H. revert m. induction H as [|line rest H _ IH]; intros m.
  - by exists m.
  - destruct (PyStr.split line) as [|k bp] eqn:E; [done|].
    rewrite (parse_lines_cons _ _ _ _ _ E). apply IH.
Qed.

Lemma parse_lines_ok_nonblank lines m m' :
  parse_lines lines m = Ok m' →
  Forall (λ l, PyStr.split l ≠ []) lines.
Proof.
  revert m. induction lines as [|line rest IH]; intros m H; [constructor|].
  destruct (PyStr.split line) as [|k bp] eqn:E.
  - simpl in H. by rewrite E in H.
  - rewrite (parse_lines_cons _ _ _ _ _ E) in H.
    constructor; [by rewrite E|]. by eapply IH.
Qed.

Lemma parse_lines_app l1 l2 m :
  parse_lines (l1 ++ l2) m
  = match parse_lines l1 m with
    | Ok m1 => parse_lines l2 m1
    | Raise e => Raise e
    end.
Proof.
  revert m. induction l1 as [|line l1 IH]; intros m; [done|].
  simpl. destruct (PyStr.split line) as [|k bp]; [done|].
  destruct (m !! k); apply IH.
Qed.

(** A locale no line names keeps the entry it had. *)
Lemma parse_lines_untouched lines m m' loc :
  parse_lines lines m = Ok m' →
  (∀ line, line ∈ lines → key_of line ≠ Some loc) →
  m' !! loc = m !! loc.
Proof.
  revert m. induction lines as [|line rest IH]; intros m H Hk.
  - simpl in H. by inversion H.
  - destruct (PyStr.split line) as [|k bp] eqn:E.
    { simpl in H. by rewrite E in H. }
    rewrite (parse_lines_cons _ _ _ _ _ E) in H.
    rewrite (IH _ H); [|intros l Hl; apply Hk; by right].
    apply lookup_insert_ne. intros ->.
    apply (Hk line); [by left|]. unfold key_of. by rewrite E.
Qed.

(** The keys of the result: those already there and the first tokens of
    the lines. *)
Lemma parse_lines_dom lines m m' loc :
  parse_lines lines m = Ok m' →
  is_Some (m' !! loc)
  ↔ is_Some (m !! loc) ∨ ∃ line, line ∈ lines ∧ key_of line = Some loc.
Proof.
  revert m. induction lines as [|line rest IH]; intros m H.
  - simpl in H. injection H as <-. split; [by left|].
    intros [?|(l & Hl & _)]; [done|]. by apply elem_of_nil in Hl.
  - destruct (PyStr.split line) as [|k bp] eqn:E.
    { simpl in H. by rewrite E in H. }
    rewrite (parse_lines_cons _ _ _ _ _ E) in H.
    rewrite (IH _ H). rewrite lookup_insert.
    assert (key_of line = Some k) as Hkey by (unfold key_of; by rewrite E).
    case_decide as Hd.
    + subst k. split; [|intros _; left; by eexists].
      intros _. right. exists line. split; [by left|done].
    + split.
      * intros [?|(l & Hl & ?)]; [by left|]. right. exists l.
        split; [by right|done].
      * intros [?|(l & Hl & Hkl)]; [by left|].
        apply elem_of_cons in Hl as [->|Hl].
        -- congruence.
        -- right. by exists l.
Qed.

(** The tokens of an entry: those it had and the restriction tokens of
    every line that names the locale. *)
Lemma parse_lines_elem lines m m' loc ps p :
  parse_lines lines m = Ok m' →
  m' !! loc = Some ps →
  p ∈ ps
  ↔ (∃ cur, m !! loc = Some cur ∧ p ∈ cur)
    ∨ ∃ line rest, line ∈ lines ∧ PyStr.split line = loc :: rest ∧ p ∈ rest.
Proof.
  revert m. induction lines as [|line rest IH]; intros m H Hps.
  - simpl in H. injection H as <-. split.
    + intros Hp. left. by exists ps.
    + intros [(cur & Hcur & Hp)|(l & r & Hl & _)]; [congruence|].
      by apply elem_of_nil in Hl.
  - destruct (PyStr.split line) as [|k bp] eqn:E.
    { simpl in H. by rewrite E in H. }
    rewrite (parse_lines_cons _ _ _ _ _ E) in H.
    rewrite (IH _ H Hps). rewrite lookup_insert.
    case_decide as Hd.
    + subst k. split.
      * intros [(cur & [= <-] & Hp)|(l & r & Hl & Hs & Hp)].
        -- apply entry_after_elem in Hp as [?|Hp]; [by left|].
           right. exists line, bp. split; [by left|done].
        -- right. exists l, r. split; [by right|done].
      * intros [(cur & Hcur & Hp)|(l & r & Hl & Hs & Hp)].
        -- left. eexists. split; [done|]. apply entry_after_elem. left.
           by exists cur.
        -- apply elem_of_cons in Hl as [->|Hl].
           ++ left. eexists. split; [done|]. apply entry_after_elem. right.
              congruence.
           ++ right. by exists l, r.
    + split.
      * intros [?|(l & r & Hl & Hs & Hp)]; [by left|].
        right. exists l, r. split; [by right|done].
      * intros [?|(l & r & Hl & Hs & Hp)]; [by left|].
        apply elem_of_cons in Hl as [->|Hl]; [congruence|].
        right. by exists l, r.
Qed.

(** [ParseLocalesFile] returns a mapping exactly when no line is blank. *)
Lemma ParseLocalesFile_ok_iff data :
  (∃ m, ParseLocalesFile data = Ok m)
  ↔ Forall (λ l, PyStr.split l ≠ []) (lines_of data).
Proof.
  split.
  - intros [m H]. by eapply parse_lines_ok_nonblank.
  - apply parse_lines_total.
Qed.

(** The entry of a locale named by exactly one line is that line's
    restriction tokens, as they stand. *)
Lemma parse_lines_single l1 line l2 m loc rest :
  parse_lines (l1 ++ line :: l2) ∅ = Ok m →
  PyStr.split line = loc :: rest →
  (∀ l, l ∈ (l1 ++ l2)%list → key_of l ≠ Some loc) →
  m !! loc = Some rest.
Proof.
  intros H E Hk. rewrite parse_lines_app in H.
  destruct (parse_lines l1 ∅) as [m1|] eqn:H1; [|done].
  assert (m1 !! loc = None) as Hnone.
  { rewrite (parse_lines_untouched _ _ _ loc H1); [done|].
    intros l Hl. apply Hk, elem_of_app. by left. }
  rewrite (parse_lines_cons _ _ _ _ _ E) in H.
  rewrite (parse_lines_untouched _ _ _ loc H).
  - unfold entry_after. rewrite Hnone. apply lookup_insert_eq.
  - intros l Hl. apply Hk, elem_of_app. by right.
Qed.

(** C1 (the code departs from it): a line of whitespace only, left
    inside the text after trimming, is not skipped: [splitLine[0]] raises
    [IndexError] and no mapping is returned.  What does hold is that a
    returned mapping never has the empty string as a locale id. *)
Theorem C1_blank_line_raises :
  (∀ data line,
      line ∈ lines_of data → PyStr.all_space line = true →
      ParseLocalesFile data = Raise IndexError)
  ∧ (∀ data m, ParseLocalesFile data = Ok m → m !! EmptyString = None).
Proof.
  split.
  - intros data line Hin Hsp. apply parse_lines_blank.
    apply Exists_exists. exists line. split; [done|].
    by apply split_nil_iff.
  - intros data m H. apply eq_None_not_Some. intros Hs.
    apply (parse_lines_dom _ _ _ EmptyString H) in Hs
      as [Hs|(line & _ & Hk)].
    + rewrite lookup_empty in Hs. by destruct Hs.
    + unfold key_of in Hk.
      destruct (PyStr.split line) as [|k bp] eqn:E; [done|].
      simpl in Hk. injection Hk as ->.
      apply (split_token_nonempty line EmptyString); [|done].
      rewrite E. by left.
Qed.

Lemma C1_blank_line_raises_witness :
  ParseLocalesFile ("fr" ++ nl ++ nl ++ "de") = Raise IndexError.
Proof.
  apply (proj1 C1_blank_line_raises ("fr" ++ nl ++ nl ++ "de") EmptyString).
  - vm_compute. right. left.
  - reflexivity.
Defined.

(** C2 (the code departs from it): on a text that is empty after
    stripping, [data.split('\n')] is [['']], the single line has no token
    and [ParseLocalesFile] raises [IndexError] instead of returning the
    empty mapping. *)
Theorem C2_empty_input_raises data :
  PyStr.strip data = EmptyString →
  ParseLocalesFile data = Raise IndexError.
Proof. intros H. unfold ParseLocalesFile. by rewrite H. Qed.

Lemma C2_empty_input_raises_witness :
  ParseLocalesFile EmptyString = Raise IndexError
  ∧ ParseLocalesFile (" " ++ nl ++ " ") = Raise IndexError.
Proof.
  split; apply C2_empty_input_raises; reflexivity.
Defined.

(** C7: the keys of the mapping [ParseLocalesFile] returns are unique, a
    locale is a key exactly when some line starts with it, and its
    restriction list holds exactly the restriction tokens of all the
    lines that start with it (a repeated locale accumulates, it is never
    overwritten); ["fr linux\nfr osx"] gives [{fr: [linux, osx]}]. *)
Theorem C7_repeated_locales_union :
  (∀ data,
      Forall (λ l, PyStr.split l ≠ []) (lines_of data) →
      ∃ m, ParseLocalesFile data = Ok m
           ∧ NoDup (map_to_list m).*1
           ∧ ∀ loc,
               (is_Some (m !! loc)
                ↔ ∃ line, line ∈ lines_of data ∧ key_of line = Some loc)
               ∧ ∀ ps, m !! loc = Some ps →
                   ∀ p, p ∈ ps
                        ↔ ∃ line rest, line ∈ lines_of data
                                       ∧ PyStr.split line = loc :: rest
                                       ∧ p ∈ rest)
  ∧ ParseLocalesFile ("fr linux" ++ nl ++ "fr osx")
    = Ok {["fr" := ["linux"; "osx"]]}.
Proof.
  split; [|by vm_compute].
  intros data Hnb.
  destruct (parse_lines_total _ ∅ Hnb) as [m Hm].
  exists m. split; [exact Hm|]. split; [apply NoDup_fst_map_to_list|].
  intros loc. split.
  - rewrite (parse_lines_dom _ _ _ loc Hm). rewrite lookup_empty.
    split; [intros [[? ?]|?]; done|by right].
  - intros ps Hps p. rewrite (parse_lines_elem _ _ _ _ _ p Hm Hps).
    split; [|by right].
    intros [(cur & Hcur & _)|?]; [|done]. by rewrite lookup_empty in Hcur.
Qed.

Lemma C7_repeated_locales_union_witness :
  ∃ m, ParseLocalesFile ("fr linux" ++ nl ++ "ja" ++ nl ++ "fr osx linux")
       = Ok m
       ∧ m !! "fr" = Some ["linux"; "osx"].
Proof.
  destruct (proj1 C7_repeated_locales_union
              ("fr linux" ++ nl ++ "ja" ++ nl ++ "fr osx linux"))
    as (m & Hm & _).
  - apply (bool_decide_unpack _). vm_compute. exact I.
  - exists m. split; [exact Hm|].
    vm_compute in Hm. injection Hm as <-. reflexivity.
Defined.

(** C8, as amended: every line of a text without blank lines has its first token as
    a key of the result; the list stored there contains the line's
    remaining tokens, contains only tokens that stand on a line of that
    locale, and is the line's remaining tokens, unchanged, when no other
    line names the locale.  No token is normalized:
    ["fr\nja linux win32\nde"] gives [{fr: [], ja: [linux, win32], de: []}]. *)
Theorem C8_line_entries :
  (∀ data,
      Forall (λ l, PyStr.split l ≠ []) (lines_of data) →
      ∃ m, ParseLocalesFile data = Ok m
           ∧ ∀ l1 line l2,
               lines_of data = (l1 ++ line :: l2)%list →
               ∃ loc rest ps,
                 PyStr.split line = loc :: rest
                 ∧ m !! loc = Some ps
                 ∧ (∀ p, p ∈ rest → p ∈ ps)
                 ∧ (∀ p, p ∈ ps →
                      ∃ line' rest', line' ∈ lines_of data
                                     ∧ PyStr.split line' = loc :: rest'
                                     ∧ p ∈ rest')
                 ∧ ((∀ l, l ∈ (l1 ++ l2)%list → key_of l ≠ Some loc) → ps = rest))
  ∧ ParseLocalesFile ("fr" ++ nl ++ "ja linux win32" ++ nl ++ "de")
    = Ok (<["de" := []]> (<["ja" := ["linux"; "win32"]]> {["fr" := []]})).
Proof.
  split; [|by vm_compute].
  intros data Hnb.
  destruct (parse_lines_total _ ∅ Hnb) as [m Hm].
  exists m. split; [exact Hm|].
  intros l1 line l2 Hl.
  assert (line ∈ lines_of data) as Hin.
  { rewrite Hl. apply elem_of_app. right. by left. }
  destruct (PyStr.split line) as [|loc rest] eqn:E.
  { exfalso. rewrite Forall_forall in Hnb. by apply (Hnb line Hin). }
  assert (is_Some (m !! loc)) as [ps Hps].
  { apply (parse_lines_dom _ _ _ loc Hm). right. exists line.
    split; [done|]. unfold key_of. by rewrite E. }
  exists loc, rest, ps. split; [done|]. split; [done|].
  pose proof (λ p, parse_lines_elem _ _ _ _ _ p Hm Hps) as Helem.
  split; [|split].
  - intros p Hp. apply Helem. right. by exists line, rest.
  - intros p Hp. apply Helem in Hp as [(cur & Hcur & _)|?]; [|done].
    by rewrite lookup_empty in Hcur.
  - intros Hk. fold (lines_of data) in Hm. rewrite Hl in Hm.
    pose proof (parse_lines_single _ _ _ _ _ _ Hm E Hk). congruence.
Qed.

(** C8 as stated fails for a locale that several lines name: the list
    of [fr] after ["fr linux\nfr osx"] holds [osx], which is not among
    the remaining tokens of the line ["fr linux"]. *)
Lemma C8_repeated_locale_not_exact :
  ¬ (∀ data m line loc rest,
       ParseLocalesFile data = Ok m →
       line ∈ lines_of data →
       PyStr.split line = loc :: rest →
       ∃ ps, m !! loc = Some ps ∧ ∀ p, p ∈ ps ↔ p ∈ rest).
Proof.
  intros H.
  destruct (H ("fr linux" ++ nl ++ "fr osx")
              {["fr" := ["linux"; "osx"]]} "fr linux" "fr" ["linux"])
    as (ps & Hps & Hiff).
  - by vm_compute.
  - vm_compute. left.
  - by vm_compute.
  - rewrite lookup_singleton_eq in Hps. injection Hps as <-.
    assert ("osx" ∈ ["linux"]) as Hin by (apply Hiff; right; left).
    apply list_elem_of_singleton in Hin. discriminate.
Qed.

Lemma C8_line_entries_witness :
  ∃ m, ParseLocalesFile ("fr" ++ nl ++ "ja linux macosx64") = Ok m
       ∧ m !! "ja" = Some ["linux"; "macosx64"].
Proof.
  destruct (proj1 C8_line_entries ("fr" ++ nl ++ "ja linux macosx64"))
    as (m & Hm & Hl).
  - apply (bool_decide_unpack _). vm_compute. exact I.
  - exists m. split; [exact Hm|].
    destruct (Hl ["fr"] "ja linux macosx64" [])
      as (loc & rest & ps & E & Hps & _ & _ & Hex); [reflexivity|].
    vm_compute in E. injection E as <- <-.
    rewrite Hps. f_equal. apply Hex.
    intros l Hl'. apply list_elem_of_singleton in Hl' as ->.
    vm_compute. discriminate.
Defined.

(** ** Construction *)

Lemma linux_not_macosx p :
  PyStr.startswith p "linux" = true → PyStr.startswith p "macosx" = false.
Proof.
  unfold PyStr.startswith. destruct p as [|c p]; [done|].
  destruct c as [[] [] [] [] [] [] [] []]; cbn; done.
Qed.

Lemma normalize_platform_macosx p :
  PyStr.startswith p "macosx" = true → L10nMixin.normalize_platform p = "osx".
Proof. intros H. unfold L10nMixin.normalize_platform. by rewrite H. Qed.

Lemma normalize_platform_linux p :
  PyStr.startswith p "linux" = true → L10nMixin.normalize_platform p = "linux".
Proof.
  intros H. unfold L10nMixin.normalize_platform.
  by rewrite (linux_not_macosx _ H), H.
Qed.

Lemma normalize_platform_other p :
  PyStr.startswith p "macosx" = false → PyStr.startswith p "linux" = false →
  L10nMixin.normalize_platform p = p.
Proof. intros H1 H2. unfold L10nMixin.normalize_platform. by rewrite H1, H2. Qed.

(** C9: [__init__] raises [AssertionError] for a platform outside the
    eight supported names; for a supported one (and a locales URL or a
    branch to build it from) it succeeds and stores the platform
    normalized by prefix: [macosx...] as [osx], [linux...] as [linux],
    anything else as it is; [macosx64] is stored as [osx]. *)
Theorem C9_platform_checked_and_normalized :
  (∀ a, L10nMixin.arg_platform a ∉ L10nMixin.supported_platforms →
        L10nMixin.__init__ a = Raise AssertionError)
  ∧ (∀ a, L10nMixin.arg_platform a ∈ L10nMixin.supported_platforms →
          truthy_str (L10nMixin.arg_localesURL a) = true
          ∨ L10nMixin.arg_branch a ≠ None →
          ∃ s, L10nMixin.__init__ a = Ok s
               ∧ L10nMixin.platform s
                 = L10nMixin.normalize_platform (L10nMixin.arg_platform a))
  ∧ (∀ a s, L10nMixin.__init__ a = Ok s →
            L10nMixin.arg_platform a ∈ L10nMixin.supported_platforms
            ∧ L10nMixin.platform s
              = L10nMixin.normalize_platform (L10nMixin.arg_platform a))
  ∧ (∀ p, (PyStr.startswith p "macosx" = true →
           L10nMixin.normalize_platform p = "osx")
          ∧ (PyStr.startswith p "linux" = true →
             L10nMixin.normalize_platform p = "linux")
          ∧ (PyStr.startswith p "macosx" = false →
             PyStr.startswith p "linux" = false →
             L10nMixin.normalize_platform p = p))
  ∧ (∀ a s, L10nMixin.arg_platform a = "macosx64" →
            L10nMixin.__init__ a = Ok s → L10nMixin.platform s = "osx").
Proof.
  assert (∀ a s, L10nMixin.__init__ a = Ok s →
            L10nMixin.arg_platform a ∈ L10nMixin.supported_platforms
            ∧ L10nMixin.platform s
              = L10nMixin.normalize_platform (L10nMixin.arg_platform a))
    as Hok.
  { intros a s. unfold L10nMixin.__init__.
    destruct (truthy_str (L10nMixin.arg_localesURL a));
      [destruct (L10nMixin.arg_localesURL a)
      |destruct (L10nMixin.arg_branch a)];
      try case_bool_decide; intros [= <-] || done; by split. }
  split; [|split; [|split; [exact Hok|split]]].
  - intros a Hp. unfold L10nMixin.__init__.
    destruct (truthy_str (L10nMixin.arg_localesURL a));
      [destruct (L10nMixin.arg_localesURL a)
      |destruct (L10nMixin.arg_branch a)];
      try case_bool_decide; done.
  - intros a Hp Hsrc. unfold L10nMixin.__init__.
    destruct (truthy_str (L10nMixin.arg_localesURL a)) eqn:Hu.
    + destruct (L10nMixin.arg_localesURL a); rewrite bool_decide_true by done;
        (eexists; split; reflexivity).
    + destruct Hsrc as [?|Hb]; [done|].
      destruct (L10nMixin.arg_branch a); [|done].
      rewrite bool_decide_true by done. eexists; split; reflexivity.
  - intros p. split; [apply normalize_platform_macosx|].
    split; [apply normalize_platform_linux|apply normalize_platform_other].
  - intros a s Hp Hs. apply Hok in Hs as [_ ->]. by rewrite Hp.
Qed.

Lemma C9_platform_checked_and_normalized_witness :
  L10nMixin.__init__ (L10nMixin.mkArgs "solaris" "https://hg.mozilla.org/"
                        (Some "mozilla-central") "default"
                        "browser/locales/all-locales" None None)
  = Raise AssertionError
  ∧ ∃ s, L10nMixin.__init__
           (L10nMixin.mkArgs "macosx64" "https://hg.mozilla.org/"
              (Some "mozilla-central") "default"
              "browser/locales/all-locales" None None) = Ok s
         ∧ L10nMixin.platform s = "osx".
Proof.
  split.
  - apply (proj1 C9_platform_checked_and_normalized).
    apply (bool_decide_unpack _). vm_compute. exact I.
  - destruct (proj1 (proj2 C9_platform_checked_and_normalized)
                (L10nMixin.mkArgs "macosx64" "https://hg.mozilla.org/"
                   (Some "mozilla-central") "default"
                   "browser/locales/all-locales" None None))
      as (s & Hs & Hp).
    + apply (bool_decide_unpack _). vm_compute. exact I.
    + right. discriminate.
    + exists s. split; [exact Hs|]. rewrite Hp. reflexivity.
Defined.

(** C10: without a locales URL ([None] or the empty string) and without a
    branch, [__init__] raises [AssertionError], whatever the other
    arguments are, an explicit locale mapping included. *)
Theorem C10_branch_required_without_url a :
  truthy_str (L10nMixin.arg_localesURL a) = false →
  L10nMixin.arg_branch a = None →
  L10nMixin.__init__ a = Raise AssertionError.
Proof.
  intros Hu Hb. unfold L10nMixin.__init__. by rewrite Hu, Hb.
Qed.

Lemma C10_branch_required_without_url_witness :
  L10nMixin.__init__
    (L10nMixin.mkArgs "linux" "https://hg.mozilla.org/" None "default"
       "browser/locales/all-locales" (Some {["fr" := ["osx"]]}) None)
  = Raise AssertionError.
Proof.
  apply C10_branch_required_without_url; reflexivity.
Defined.

(** ** The property set of a build set *)

Section LocaleProps.

Variable self : L10nMixin.self_t.
Variable properties : Properties.
Variable set_props : option Properties.
Variable locale : string.

Lemma locale_props_locale :
  L10nMixin.locale_props self properties set_props locale !! "locale"
  = Some (locale, "Scheduler").
Proof.
  unfold L10nMixin.locale_props, Host.setProperty, Host.update.
  rewrite !lookup_insert_ne by done.
  apply lookup_union_Some_l.
  by rewrite lookup_fmap, lookup_singleton_eq.
Qed.

Lemma locale_props_en_revision :
  L10nMixin.locale_props self properties set_props locale !! "en_revision"
  = Some (L10nMixin.baseTag self, "L10nMixin").
Proof.
  unfold L10nMixin.locale_props, Host.setProperty.
  rewrite lookup_insert_ne by done. apply lookup_insert_eq.
Qed.

Lemma locale_props_l10n_revision :
  L10nMixin.locale_props self properties set_props locale !! "l10n_revision"
  = Some (L10nMixin.baseTag self, "L10nMixin").
Proof.
  unfold L10nMixin.locale_props, Host.setProperty. apply lookup_insert_eq.
Qed.

End LocaleProps.

(** Merging an empty [set_props] changes nothing, so the truth value of an
    empty [Properties] object is immaterial to [if set_props:]. *)
Lemma updateFromProperties_empty (p : Properties) :
  Host.updateFromProperties p ∅ = p.
Proof. unfold Host.updateFromProperties. apply (left_id_L ∅ (∪)). Qed.

(** ** The fan-out loop *)

Lemma repacked_true_iff self loc plats :
  L10nMixin.repacked self loc plats = true
  ↔ loc ≠ "en-US" ∧ (plats = [] ∨ L10nMixin.platform self ∈ plats).
Proof.
  unfold L10nMixin.repacked.
  case_bool_decide as H1; [split; [done|tauto]|].
  case_bool_decide as H2.
  - case_bool_decide as H3.
    + split; [done|]. intros [_ [->|?]]; [simpl in H2; lia|done].
    + split; [|done]. intros _. split; [done|]. right.
      by destruct (decide (L10nMixin.platform self ∈ plats)).
  - split; [|done]. intros _. split; [done|]. left.
    destruct plats; [done|]. simpl in H2. lia.
Qed.

Lemma NoDup_fst_filter {A B} (P : A * B → bool) (l : list (A * B)) :
  NoDup l.*1 → NoDup (List.filter P l).*1.
Proof.
  induction l as [|e l IH]; simpl; [done|].
  rewrite NoDup_cons. intros [Hn Hd]. destruct (P e); simpl; [|by apply IH].
  apply NoDup_cons. split; [|by apply IH].
  intros Hin. apply Hn.
  apply list_elem_of_fmap in Hin as (x & -> & Hx).
  apply list_elem_of_fmap. exists x. split; [done|].
  apply list_elem_of_In. apply list_elem_of_In, filter_In in Hx. tauto.
Qed.

Lemma NoDup_kept self locales : NoDup (kept self locales).
Proof. apply NoDup_fst_filter, NoDup_fst_map_to_list. Qed.

Lemma elem_of_kept self locales loc :
  loc ∈ kept self locales
  ↔ ∃ plats, locales !! loc = Some plats
             ∧ loc ≠ "en-US"
             ∧ (plats = [] ∨ L10nMixin.platform self ∈ plats).
Proof.
  unfold kept. rewrite list_elem_of_fmap. split.
  - intros ([k plats] & -> & Hin).
    apply list_elem_of_In, filter_In in Hin as [Hin Hr].
    apply list_elem_of_In, elem_of_map_to_list in Hin.
    exists plats. split; [done|]. by apply repacked_true_iff.
  - intros (plats & Hl & Hr). exists (loc, plats). split; [done|].
    apply list_elem_of_In, filter_In. split.
    + by apply list_elem_of_In, elem_of_map_to_list.
    + by apply repacked_true_iff.
Qed.

Lemma submitted_locales_app bs1 bs2 :
  submitted_locales (bs1 ++ bs2)
  = (submitted_locales bs1 ++ submitted_locales bs2)%list.
Proof. apply omap_app. Qed.

Section FanOut.

Variable self : L10nMixin.self_t.
Variable properties : Properties.
Variable reason : option string.
Variable set_props : option Properties.

Lemma loop_body_buildsets w loc plats :
  buildsets
    (L10nMixin.loop_body self properties reason set_props w (loc, plats))
  = (buildsets w
     ++ if L10nMixin.repacked self loc plats
        then [mkBuildset (S (length (sourcestamps w))) reason
                (L10nMixin.locale_props self properties set_props loc)]
        else [])%list.
Proof.
  unfold L10nMixin.loop_body.
  destruct (L10nMixin.repacked self loc plats); simpl; [done|].
  by rewrite app_nil_r.
Qed.

Lemma loop_body_fetched w e :
  fetched (L10nMixin.loop_body self properties reason set_props w e)
  = fetched w.
Proof.
  destruct e as [loc plats]. unfold L10nMixin.loop_body.
  by destruct (L10nMixin.repacked self loc plats).
Qed.

(** The build sets one run of the loop adds: one per entry that passes
    the two tests, in order, each with that locale's property set and
    the reason of the call. *)
Lemma fold_loop_body entries :
  ∀ w, ∃ new,
    buildsets
      (fold_left (L10nMixin.loop_body self properties reason set_props)
         entries w)
    = (buildsets w ++ new)%list
    ∧ bs_props <$> new
      = L10nMixin.locale_props self properties set_props
        <$> (List.filter (λ e, L10nMixin.repacked self e.1 e.2) entries).*1
    ∧ Forall (λ b, bs_reason b = reason) new
    ∧ fetched
        (fold_left (L10nMixin.loop_body self properties reason set_props)
           entries w)
      = fetched w.
Proof.
  induction entries as [|[loc plats] entries IH]; intros w.
  - exists []. simpl. by rewrite app_nil_r.
  - cbn [fold_left List.filter fst snd].
    destruct (IH (L10nMixin.loop_body self properties reason set_props w
                    (loc, plats)))
      as (new & Hb & Hp & Hr & Hf).
    rewrite loop_body_buildsets in Hb. rewrite loop_body_fetched in Hf.
    destruct (L10nMixin.repacked self loc plats).
    + eexists (_ :: new). rewrite <- (assoc_L (++)) in Hb.
      split; [exact Hb|]. split; [by rewrite fmap_cons, Hp|].
      split; [by constructor|done].
    + exists new. by rewrite app_nil_r in Hb.
Qed.

Lemma cbLoadedLocales_buildsets locales w :
  ∃ new,
    buildsets
      (L10nMixin._cbLoadedLocales self properties locales reason set_props w)
    = (buildsets w ++ new)%list
    ∧ bs_props <$> new
      = L10nMixin.locale_props self properties set_props
        <$> kept self locales
    ∧ Forall (λ b, bs_reason b = reason) new
    ∧ fetched
        (L10nMixin._cbLoadedLocales self properties locales reason
           set_props w)
      = fetched w.
Proof.
  unfold L10nMixin._cbLoadedLocales.
  destruct (fold_loop_body (map_to_list locales)
              (Host.log_msg "L10nMixin:: loaded locales' list" w))
    as (new & Hb & Hp & Hr & Hf).
  by exists new.
Qed.

Lemma submitted_locales_props new ks :
  bs_props <$> new
  = L10nMixin.locale_props self properties set_props <$> ks →
  submitted_locales new = ks.
Proof.
  revert ks. induction new as [|b new IH]; intros [|k ks] H;
    simplify_eq/=; [done|].
  unfold submitted_locales in *. simpl.
  rewrite H. rewrite locale_props_locale. simpl.
  f_equal. by apply IH.
Qed.

End FanOut.

(** ** Resolving the locales *)

(** [__init__] stores the [locales] argument as it is. *)
Lemma init_locales a s :
  L10nMixin.__init__ a = Ok s → L10nMixin.locales s = L10nMixin.arg_locales a.
Proof.
  unfold L10nMixin.__init__.
  destruct (truthy_str (L10nMixin.arg_localesURL a));
    [destruct (L10nMixin.arg_localesURL a)
    |destruct (L10nMixin.arg_branch a)];
    try case_bool_decide; intros Hi; try discriminate Hi;
    by injection Hi as <-.
Qed.

(** C3, as amended: for a scheduler constructed with a non-empty locale
    mapping, [getLocales] returns that mapping on the synchronous path,
    fetches nothing and submits nothing, and a second call returns the
    same mapping; with the empty mapping [getLocales] does exactly what
    it does with no mapping. *)
Theorem C3_explicit_locales_returned :
  (∀ a self revision revision' w m,
      L10nMixin.__init__ a = Ok self →
      L10nMixin.arg_locales a = Some m →
      m ≠ ∅ →
      let r := L10nMixin.getLocales self revision w in
      r.1 = Ok (L10nMixin.Sync m)
      ∧ fetched r.2 = fetched w
      ∧ buildsets r.2 = buildsets w
      ∧ (L10nMixin.getLocales self revision' r.2).1
        = Ok (L10nMixin.Sync m))
  ∧ (∀ self revision w,
       L10nMixin.locales self = Some ∅ →
       L10nMixin.getLocales self revision w
       = L10nMixin.getLocales (without_locales self) revision w).
Proof.
  split.
  - intros a self revision revision' w m Hi Hm Hne.
    apply init_locales in Hi. rewrite Hm in Hi.
    unfold L10nMixin.getLocales.
    rewrite Hi. simpl. rewrite bool_decide_true by done. done.
  - intros self revision w He. unfold L10nMixin.getLocales. rewrite He.
    simpl. by rewrite bool_decide_false by (intros H; by apply H).
Qed.

Lemma C3_explicit_locales_returned_witness :
  (L10nMixin.getLocales (ex_self (Some ex_locales) "osx") None
     (world0 no_web)).1
  = Ok (L10nMixin.Sync ex_locales)
  ∧ L10nMixin.getLocales (ex_self (Some ∅) "osx") None (world0 one_page)
    = L10nMixin.getLocales (ex_self None "osx") None (world0 one_page).
Proof.
  split.
  - apply (proj1 C3_explicit_locales_returned
             (ex_args (Some ex_locales) "macosx64")
             (ex_self (Some ex_locales) "osx")
             None None (world0 no_web) ex_locales).
    + reflexivity.
    + reflexivity.
    + apply (bool_decide_unpack _). vm_compute. exact I.
  - apply (proj2 C3_explicit_locales_returned (ex_self (Some ∅) "osx")
             None (world0 one_page)).
    reflexivity.
Defined.

(** C3 as stated fails for the empty mapping: [if self.locales:] is false
    for [{}], so the URL is expanded and the page fetched. *)
Lemma C3_empty_mapping_is_fetched :
  ¬ (∀ a self revision w m,
       L10nMixin.__init__ a = Ok self →
       L10nMixin.arg_locales a = Some m →
       (L10nMixin.getLocales self revision w).1 = Ok (L10nMixin.Sync m)
       ∧ fetched (L10nMixin.getLocales self revision w).2 = fetched w).
Proof.
  intros H.
  destruct (H (ex_args (Some ∅) "osx") (ex_self (Some ∅) "osx") None
              (world0 no_web) ∅ eq_refl eq_refl)
    as [Hr Hf].
  vm_compute in Hf. discriminate.
Qed.

(** C4: when the locales are not configured and the fetch of the expanded
    URL fails, the Deferred [createL10nBuilds] returns has failed with the
    failure of the fetch, and no source stamp and no build set were
    created. *)
Theorem C4_fetch_failure_submits_nothing
    self properties revision reason set_props w url e :
  truthy_dict (L10nMixin.locales self) = false →
  pct_format (L10nMixin.localesURL self)
    (py_or revision (L10nMixin.baseTag self)) = Ok url →
  web w url = Raise e →
  let r := L10nMixin.createL10nBuilds self properties revision reason
             set_props w in
  r.1 = Failed e
  ∧ buildsets r.2 = buildsets w
  ∧ sourcestamps r.2 = sourcestamps w
  ∧ fetched r.2 = (fetched w ++ [(url, 300)])%list.
Proof.
  intros Hl Hu He.
  unfold L10nMixin.createL10nBuilds, L10nMixin.getLocales.
  rewrite Hl, Hu. unfold Host.getPage. simpl. rewrite He. done.
Qed.

Lemma C4_fetch_failure_submits_nothing_witness :
  let r := L10nMixin.createL10nBuilds (ex_self None "osx") ∅ (Some "abc")
             None None (world0 no_web) in
  r.1 = Failed (FetchError "timeout") ∧ buildsets r.2 = [].
Proof.
  destruct (C4_fetch_failure_submits_nothing (ex_self None "osx") ∅
              (Some "abc") None None (world0 no_web)
              "http://h/abc/all-locales" (FetchError "timeout"))
    as (H1 & H2 & _); [reflexivity..|].
  split; [exact H1|exact H2].
Defined.

(** ** Submitting the build sets *)

(** C5: every build set one run of [_cbLoadedLocales] submits is that of
    a locale which passed the two tests, and its property set has
    [locale] equal to that locale and [en_revision] and [l10n_revision]
    equal to the base tag, whatever [self.properties] and [set_props]
    hold for these keys. *)
Theorem C5_fanout_properties_win
    self properties locales reason set_props w new b :
  buildsets (L10nMixin._cbLoadedLocales self properties locales reason
               set_props w)
  = (buildsets w ++ new)%list →
  b ∈ new →
  ∃ locale,
    locale ∈ kept self locales
    ∧ bs_props b !! "locale" = Some (locale, "Scheduler")
    ∧ bs_props b !! "en_revision" = Some (L10nMixin.baseTag self, "L10nMixin")
    ∧ bs_props b !! "l10n_revision"
      = Some (L10nMixin.baseTag self, "L10nMixin").
Proof.
  intros Hb Hin.
  destruct (cbLoadedLocales_buildsets self properties reason set_props
              locales w) as (new' & Hb' & Hp & _).
  rewrite Hb in Hb'. apply app_inv_head in Hb'. subst new'.
  assert (bs_props b ∈ bs_props <$> new) as Hpb
    by (by apply list_elem_of_fmap_2).
  rewrite Hp in Hpb. apply list_elem_of_fmap in Hpb as (locale & -> & Hk).
  exists locale. split; [done|].
  split; [apply locale_props_locale|].
  split; [apply locale_props_en_revision|apply locale_props_l10n_revision].
Qed.

Lemma C5_fanout_properties_win_witness :
  let b := mkBuildset 1 None
             (L10nMixin.locale_props (ex_self None "osx") ex_set_props
                (Some ex_set_props) "fr") in
  buildsets (L10nMixin._cbLoadedLocales (ex_self None "osx") ex_set_props
               ex_locales None (Some ex_set_props) (world0 no_web)) = [b]
  ∧ bs_props b !! "locale" = Some ("fr", "Scheduler")
  ∧ bs_props b !! "en_revision" = Some ("default", "L10nMixin")
  ∧ bs_props b !! "l10n_revision" = Some ("default", "L10nMixin").
Proof.
  intros b. split; [by vm_compute|].
  destruct (C5_fanout_properties_win (ex_self None "osx") ex_set_props
              ex_locales None (Some ex_set_props) (world0 no_web) [b] b)
    as (locale & _ & H1 & H2 & H3).
  - by vm_compute.
  - by left.
  - split; [by vm_compute|]. split; [exact H2|exact H3].
Defined.

(** C6: one run of [_cbLoadedLocales] submits one build set for each
    locale of the mapping that is not [en-US] and whose restriction list
    is empty or contains the platform of the scheduler, and none else;
    for [{en-US: [], fr: [], ja: [linux]}] on [osx] the only build set is
    that of [fr]. *)
Theorem C6_one_build_per_kept_locale :
  (∀ self properties locales reason set_props w,
      ∃ new,
        buildsets (L10nMixin._cbLoadedLocales self properties locales reason
                     set_props w)
        = (buildsets w ++ new)%list
        ∧ length (submitted_locales new) = length new
        ∧ NoDup (submitted_locales new)
        ∧ ∀ loc,
            loc ∈ submitted_locales new
            ↔ ∃ plats, locales !! loc = Some plats
                       ∧ loc ≠ "en-US"
                       ∧ (plats = [] ∨ L10nMixin.platform self ∈ plats))
  ∧ (∀ properties revision reason set_props,
       submitted_locales
         (buildsets
            (L10nMixin.createL10nBuilds (ex_self (Some ex_locales) "osx")
               properties revision reason set_props (world0 no_web)).2)
       = ["fr"]).
Proof.
  split.
  - intros self properties locales reason set_props w.
    destruct (cbLoadedLocales_buildsets self properties reason set_props
                locales w) as (new & Hb & Hp & _).
    pose proof (submitted_locales_props _ _ _ _ _ Hp) as Hs.
    exists new. split; [exact Hb|]. rewrite Hs.
    split; [|split; [apply NoDup_kept|apply elem_of_kept]].
    rewrite <- (length_fmap bs_props new), Hp. by rewrite length_fmap.
  - intros properties revision reason set_props.
    unfold L10nMixin.createL10nBuilds, L10nMixin.getLocales.
    assert (truthy_dict (L10nMixin.locales (ex_self (Some ex_locales) "osx"))
            = true) as -> by (by vm_compute).
    simpl.
    match goal with
    | |- context [L10nMixin._cbLoadedLocales ?s ?p ?l ?r ?sp ?w] =>
        destruct (cbLoadedLocales_buildsets s p r sp l w)
          as (new & -> & Hp & _)
    end.
    simpl. apply (submitted_locales_props _ _ _ _ _ Hp).
Qed.


(** * Further properties of the code *)

(** ** Strings *)

Lemma str_app_cons c s t : String c s ++ t = String c (s ++ t).
Proof. reflexivity. Qed.

Lemma str_app_nil_r s : s ++ EmptyString = s.
Proof. induction s as [|c s IH]; [done|]. by rewrite str_app_cons, IH. Qed.

Lemma str_app_assoc s t u : (s ++ t) ++ u = s ++ (t ++ u).
Proof. induction s as [|c s IH]; [done|]. by rewrite !str_app_cons, IH. Qed.

Lemma rev_app_spec s t : String.rev_app s t = String.rev s ++ t.
Proof.
  unfold String.rev. revert t. induction s as [|c s IH]; intros t; [done|].
  simpl. rewrite (IH (String c t)), (IH (String c EmptyString)).
  by rewrite str_app_assoc.
Qed.

Lemma rev_app_distr s t : String.rev (s ++ t) = String.rev t ++ String.rev s.
Proof.
  induction s as [|c s IH].
  - by rewrite str_app_nil_r.
  - rewrite str_app_cons. unfold String.rev at 1 3. simpl.
    rewrite !rev_app_spec, IH. by rewrite str_app_assoc.
Qed.

Lemma all_space_app s t :
  PyStr.all_space (s ++ t) = PyStr.all_space s && PyStr.all_space t.
Proof.
  induction s as [|c s IH]; [done|]. rewrite str_app_cons. simpl.
  rewrite IH. by destruct (Ascii.is_space c).
Qed.

Lemma all_space_rev s : PyStr.all_space (String.rev s) = PyStr.all_space s.
Proof.
  induction s as [|c s IH]; [done|].
  unfold String.rev. simpl. rewrite rev_app_spec, all_space_app, IH. simpl.
  destruct (PyStr.all_space s), (Ascii.is_space c); done.
Qed.

Lemma lstrip_all_space s :
  PyStr.all_space s = true → PyStr.lstrip s = EmptyString.
Proof.
  induction s as [|c s IH]; [done|]. simpl.
  destruct (Ascii.is_space c); [exact IH|done].
Qed.

Lemma lstrip_app_space ws s :
  PyStr.all_space ws = true → PyStr.lstrip (ws ++ s) = PyStr.lstrip s.
Proof.
  induction ws as [|c ws IH]; [done|]. rewrite str_app_cons. simpl.
  destruct (Ascii.is_space c); [exact IH|done].
Qed.

Lemma lstrip_app_nonspace s t :
  PyStr.all_space s = false → PyStr.lstrip (s ++ t) = PyStr.lstrip s ++ t.
Proof.
  induction s as [|c s IH]; [done|]. rewrite str_app_cons. simpl.
  destruct (Ascii.is_space c); [exact IH|by rewrite str_app_cons].
Qed.

Lemma rstrip_app_space s ws :
  PyStr.all_space ws = true → PyStr.rstrip (s ++ ws) = PyStr.rstrip s.
Proof.
  intros H. unfold PyStr.rstrip. rewrite rev_app_distr.
  rewrite lstrip_app_space; [done|]. by rewrite all_space_rev.
Qed.

Lemma strip_surround ws1 s ws2 :
  PyStr.all_space ws1 = true → PyStr.all_space ws2 = true →
  PyStr.strip (ws1 ++ s ++ ws2) = PyStr.strip s.
Proof.
  intros H1 H2. unfold PyStr.strip. rewrite (lstrip_app_space _ _ H1).
  destruct (PyStr.all_space s) eqn:Hs.
  - rewrite !lstrip_all_space; [done..|]. by rewrite all_space_app, Hs, H2.
  - rewrite (lstrip_app_nonspace _ _ Hs). by apply rstrip_app_space.
Qed.

Lemma fields_no_sep sep s f :
  f ∈ PyStr.fields sep s → has_char sep f = false.
Proof.
  revert f. induction s as [|c s IH]; intros f; simpl.
  - by intros ->%list_elem_of_singleton.
  - destruct (sep c) eqn:Hc.
    + intros [->|?]%elem_of_cons; [done|by apply IH].
    + destruct (PyStr.fields sep s) as [|f0 fs]; simpl.
      * intros ->%list_elem_of_singleton. simpl. by rewrite Hc.
      * intros [->|?]%elem_of_cons.
        -- simpl. rewrite Hc. apply IH. by left.
        -- apply IH. by right.
Qed.

Lemma split_token_clean s t :
  t ∈ PyStr.split s → t ≠ EmptyString ∧ has_char Ascii.is_space t = false.
Proof.
  intros H. split; [by eapply split_token_nonempty|].
  unfold PyStr.split in H. apply list_elem_of_In, filter_In in H as [H _].
  by apply list_elem_of_In, fields_no_sep in H.
Qed.

(** ** The parser: errors, whitespace, token order *)

(** X1: [ParseLocalesFile] either returns a mapping or raises
    [IndexError], never another exception, and it raises exactly when a
    line of the trimmed text holds no token. *)
Theorem X1_parse_raises_only_on_blank_line data :
  ((∃ m, ParseLocalesFile data = Ok m)
   ∨ ParseLocalesFile data = Raise IndexError)
  ∧ (ParseLocalesFile data = Raise IndexError
     ↔ ∃ line, line ∈ lines_of data ∧ PyStr.all_space line = true).
Proof.
  assert ((∃ line, line ∈ lines_of data ∧ PyStr.all_space line = true)
          → ParseLocalesFile data = Raise IndexError) as Hblank.
  { intros (line & Hin & Hsp). apply parse_lines_blank, Exists_exists.
    exists line. split; [done|]. by apply split_nil_iff. }
  destruct (decide (Forall (λ l, PyStr.split l ≠ []) (lines_of data)))
    as [Hall|Hex].
  - destruct (parse_lines_total _ ∅ Hall) as [m Hm].
    fold (lines_of data) in Hm.
    split; [left; by exists m|]. split; [|exact Hblank].
    unfold ParseLocalesFile. fold (lines_of data). by rewrite Hm.
  - apply not_Forall_Exists in Hex; [|apply _].
    apply Exists_exists in Hex as (line & Hin & Hne).
    assert (PyStr.split line = []) as Hnil.
    { unfold compose in Hne. simpl in Hne.
      destruct (PyStr.split line) as [|k bp]; [done|].
      exfalso. apply Hne. discriminate. }
    assert (∃ line, line ∈ lines_of data ∧ PyStr.all_space line = true)
      as Hw by (exists line; split; [done|by apply split_nil_iff]).
    split; [right; by apply Hblank|]. split; [done|exact Hblank].
Qed.

(** X2: whitespace around the text is immaterial: a text and the same
    text with whitespace added in front of it and after it (a final
    newline, say) are parsed alike. *)
Theorem X2_parse_ignores_surrounding_whitespace ws1 data ws2 :
  PyStr.all_space ws1 = true →
  PyStr.all_space ws2 = true →
  ParseLocalesFile (ws1 ++ data ++ ws2) = ParseLocalesFile data.
Proof.
  intros H1 H2. unfold ParseLocalesFile. by rewrite strip_surround.
Qed.

Lemma X2_parse_ignores_surrounding_whitespace_witness :
  ParseLocalesFile (nl ++ "fr" ++ nl ++ "ja linux" ++ nl)
  = ParseLocalesFile ("fr" ++ nl ++ "ja linux").
Proof.
  apply (X2_parse_ignores_surrounding_whitespace nl
           ("fr" ++ nl ++ "ja linux") nl); reflexivity.
Defined.

(** X3: every locale id and every restriction token of a returned mapping
    is a non-empty string without whitespace. *)
Theorem X3_parse_tokens_are_words data m loc ps :
  ParseLocalesFile data = Ok m →
  m !! loc = Some ps →
  (loc ≠ EmptyString ∧ has_char Ascii.is_space loc = false)
  ∧ ∀ p, p ∈ ps → p ≠ EmptyString ∧ has_char Ascii.is_space p = false.
Proof.
  intros Hm Hps. split.
  - assert (is_Some (m !! loc)) as Hs by (by exists ps).
    apply (parse_lines_dom _ _ _ loc Hm) in Hs as [Hs|(line & _ & Hk)].
    { rewrite lookup_empty in Hs. by destruct Hs. }
    unfold key_of in Hk.
    destruct (PyStr.split line) as [|k bp] eqn:E; [done|].
    simpl in Hk. injection Hk as ->.
    apply (split_token_clean line). rewrite E. by left.
  - intros p Hp.
    apply (parse_lines_elem _ _ _ _ _ p Hm Hps) in Hp
      as [(cur & Hcur & _)|(line & rest & _ & E & Hp)].
    { by rewrite lookup_empty in Hcur. }
    apply (split_token_clean line). rewrite E. by right.
Qed.

Lemma X3_parse_tokens_are_words_witness :
  "ja" ≠ EmptyString ∧ has_char Ascii.is_space "ja" = false.
Proof.
  destruct (X3_parse_tokens_are_words ("fr" ++ nl ++ "  ja   linux  ")
              (<["ja" := ["linux"]]> {["fr" := []]}) "ja" ["linux"])
    as [H _].
  - by vm_compute.
  - by vm_compute.
  - exact H.
Defined.

Lemma append_new_ext base ex bp :
  NoDup ex → (∀ p, p ∈ ex → p ∉ base) →
  ∃ ex', append_new (base ++ ex) bp = (base ++ ex')%list
         ∧ NoDup ex' ∧ (∀ p, p ∈ ex' → p ∉ base).
Proof.
  revert ex. induction bp as [|x bp IH]; intros ex Hnd Hdis; simpl.
  - by exists ex.
  - case_bool_decide as Hx; [by apply IH|].
    rewrite <- (assoc_L (++)). apply IH.
    + apply NoDup_app. split; [done|]. split; [|apply NoDup_singleton].
      intros p Hp ->%list_elem_of_singleton. apply Hx, elem_of_app. by right.
    + intros p [Hp| ->%list_elem_of_singleton]%elem_of_app; [by apply Hdis|].
      intros Hb. apply Hx, elem_of_app. by left.
Qed.

Lemma parse_lines_ext lines m m' loc base ex :
  parse_lines lines m = Ok m' →
  m !! loc = Some (base ++ ex)%list →
  NoDup ex → (∀ p, p ∈ ex → p ∉ base) →
  ∃ ex', m' !! loc = Some (base ++ ex')%list
         ∧ NoDup ex' ∧ (∀ p, p ∈ ex' → p ∉ base).
Proof.
  revert m ex. induction lines as [|line rest IH]; intros m ex H Hl Hnd Hdis.
  - simpl in H. injection H as <-. by exists ex.
  - destruct (PyStr.split line) as [|k bp] eqn:E.
    { simpl in H. by rewrite E in H. }
    rewrite (parse_lines_cons _ _ _ _ _ E) in H.
    destruct (decide (k = loc)) as [->|Hne].
    + destruct (append_new_ext base ex bp Hnd Hdis) as (ex1 & He & Hnd1 & Hd1).
      apply (IH _ ex1 H); [|done..].
      rewrite lookup_insert_eq. unfold entry_after. by rewrite Hl, He.
    + apply (IH _ ex H); [|done..]. by rewrite lookup_insert_ne.
Qed.

(** X4: the list of a locale starts with the restriction tokens of the
    first line that names it, in their order and with their repetitions;
    what later lines add comes after them, each token once and none that
    the first line already had. *)
Theorem X4_first_line_then_new_tokens data m l1 line l2 loc rest :
  ParseLocalesFile data = Ok m →
  lines_of data = (l1 ++ line :: l2)%list →
  (∀ l, l ∈ l1 → key_of l ≠ Some loc) →
  PyStr.split line = loc :: rest →
  ∃ extra, m !! loc = Some (rest ++ extra)%list
           ∧ NoDup extra ∧ (∀ p, p ∈ extra → p ∉ rest).
Proof.
  intros Hm Hl Hk E. unfold ParseLocalesFile in Hm.
  fold (lines_of data) in Hm. rewrite Hl, parse_lines_app in Hm.
  destruct (parse_lines l1 ∅) as [m1|] eqn:H1; [|done].
  assert (m1 !! loc = None) as Hnone.
  { by rewrite (parse_lines_untouched _ _ _ loc H1 Hk). }
  rewrite (parse_lines_cons _ _ _ _ _ E) in Hm.
  apply (parse_lines_ext _ _ _ loc rest [] Hm).
  - rewrite lookup_insert_eq. unfold entry_after.
    by rewrite Hnone, app_nil_r.
  - constructor.
  - intros p Hp. by apply elem_of_nil in Hp.
Qed.

Lemma X4_first_line_then_new_tokens_witness :
  ∃ extra,
    (<["fr" := ["linux"; "linux"; "osx"]]> {["de" := []]} : Locales) !! "fr"
    = Some (["linux"; "linux"] ++ extra)%list
    ∧ NoDup extra ∧ (∀ p, p ∈ extra → p ∉ ["linux"; "linux"]).
Proof.
  apply (X4_first_line_then_new_tokens
           ("de" ++ nl ++ "fr linux linux" ++ nl ++ "fr osx linux osx")
           (<["fr" := ["linux"; "linux"; "osx"]]> {["de" := []]})
           ["de"] "fr linux linux" ["fr osx linux osx"] "fr"
           ["linux"; "linux"]).
  - by vm_compute.
  - by vm_compute.
  - intros l ->%list_elem_of_singleton. vm_compute. discriminate.
  - by vm_compute.
Defined.

(** ** Construction *)

Lemma init_inv a s :
  L10nMixin.__init__ a = Ok s →
  L10nMixin.arg_platform a ∈ L10nMixin.supported_platforms
  ∧ s = L10nMixin.mkSelf (L10nMixin.arg_branch a) (L10nMixin.arg_baseTag a)
          (L10nMixin.localesURL s) (L10nMixin.arg_locales a)
          (L10nMixin.normalize_platform (L10nMixin.arg_platform a))
  ∧ (truthy_str (L10nMixin.arg_localesURL a) = true →
     L10nMixin.arg_localesURL a = Some (L10nMixin.localesURL s))
  ∧ (truthy_str (L10nMixin.arg_localesURL a) = false →
     ∃ b, L10nMixin.arg_branch a = Some b
          ∧ L10nMixin.localesURL s
            = L10nMixin.arg_repo a ++ b ++ "/raw-file/%(revision)s/"
              ++ L10nMixin.arg_localesFile a).
Proof.
  unfold L10nMixin.__init__.
  destruct (truthy_str (L10nMixin.arg_localesURL a)) eqn:Hu.
  - destruct (L10nMixin.arg_localesURL a) as [u|]; [|done].
    case_bool_decide; [|done]. intros [= <-]. simpl. by repeat split.
  - destruct (L10nMixin.arg_branch a) as [b|]; [|done].
    case_bool_decide; [|done]. intros [= <-]. simpl.
    repeat split; [done..|]. intros _. by exists b.
Qed.

Lemma init_platform_normalized a s :
  L10nMixin.__init__ a = Ok s →
  L10nMixin.platform s ∈ normalized_platforms.
Proof.
  intros H. apply init_inv in H as (Hp & -> & _). simpl.
  unfold L10nMixin.supported_platforms in Hp.
  repeat (apply elem_of_cons in Hp as [->|Hp];
          [apply (bool_decide_unpack _); by vm_compute|]).
  by apply elem_of_nil in Hp.
Qed.

(** X5: whatever supported name [__init__] is given, the platform it
    stores is one of [linux], [win32], [win64], [osx] and [osx64]. *)
Theorem X5_stored_platform_is_normalized a s :
  L10nMixin.__init__ a = Ok s →
  L10nMixin.platform s ∈ normalized_platforms.
Proof. apply init_platform_normalized. Qed.

Lemma X5_stored_platform_is_normalized_witness :
  L10nMixin.platform (ex_self None "linux") ∈ normalized_platforms.
Proof.
  apply (X5_stored_platform_is_normalized (ex_args None "linux64")).
  reflexivity.
Defined.

(** ** The URL of the locales file *)

Lemma pct_format_literal s t revision a :
  has_char is_pct s = false →
  pct_format_go revision (FLit a) (s ++ t)
  = match pct_format_go revision (FLit a) t with
    | Ok r => Ok (s ++ r)
    | Raise e => Raise e
    end.
Proof.
  induction s as [|c s IH]; intros H.
  - change (pct_format_go revision (FLit a) t
            = match pct_format_go revision (FLit a) t with
              | Ok r => Ok r
              | Raise e => Raise e
              end).
    by destruct (pct_format_go revision (FLit a) t).
  - simpl in H. apply orb_false_iff in H as [Hc Hs].
    rewrite str_app_cons. simpl. unfold is_pct in Hc. rewrite Hc, (IH Hs).
    by destruct (pct_format_go revision (FLit a) t).
Qed.

Lemma pct_format_plain s revision a :
  has_char is_pct s = false → pct_format_go revision (FLit a) s = Ok s.
Proof.
  intros H. rewrite <- (str_app_nil_r s) at 1.
  rewrite (pct_format_literal _ _ _ _ H). simpl. by rewrite str_app_nil_r.
Qed.

Lemma pct_format_revision t revision a :
  pct_format_go revision (FLit a) ("%(revision)s" ++ t)
  = match pct_format_go revision (FLit (mkArg (VStr revision) true)) t with
    | Ok r => Ok (revision ++ r)
    | Raise e => Raise e
    end.
Proof. reflexivity. Qed.

Lemma pct_format_default repo b file revision :
  has_char is_pct repo = false →
  has_char is_pct b = false →
  has_char is_pct file = false →
  pct_format (repo ++ b ++ "/raw-file/%(revision)s/" ++ file) revision
  = Ok (repo ++ b ++ "/raw-file/" ++ revision ++ "/" ++ file).
Proof.
  intros Hr Hb Hf. unfold pct_format.
  change ("/raw-file/%(revision)s/" ++ file)
    with ("/raw-file/" ++ "%(revision)s" ++ "/" ++ file).
  rewrite (pct_format_literal repo _ _ _ Hr), (pct_format_literal b _ _ _ Hb).
  rewrite (pct_format_literal "/raw-file/") by done.
  rewrite pct_format_revision.
  rewrite (pct_format_literal "/") by done.
  by rewrite (pct_format_plain file _ _ Hf).
Qed.

(** X6: a scheduler constructed without a locales URL and without
    configured locales fetches, with a timeout of 300 seconds, the file
    [repo + branch + "/raw-file/" + rev + "/" + localesFile], where [rev]
    is the revision asked for or, failing that, the base tag (the three
    configured strings holding no [%]). *)
Theorem X6_default_url_fetched a s revision w :
  L10nMixin.__init__ a = Ok s →
  truthy_str (L10nMixin.arg_localesURL a) = false →
  truthy_dict (L10nMixin.arg_locales a) = false →
  has_char is_pct (L10nMixin.arg_repo a) = false →
  (∀ b, L10nMixin.arg_branch a = Some b → has_char is_pct b = false) →
  has_char is_pct (L10nMixin.arg_localesFile a) = false →
  ∃ b, L10nMixin.arg_branch a = Some b
       ∧ fetched (L10nMixin.getLocales s revision w).2
         = (fetched w
            ++ [((L10nMixin.arg_repo a ++ b ++ "/raw-file/"
                  ++ py_or revision (L10nMixin.arg_baseTag a) ++ "/"
                  ++ L10nMixin.arg_localesFile a)%string, 300)])%list.
Proof.
  intros Hi Hu Hl Hr Hb Hf.
  apply init_inv in Hi as (_ & Hs & _ & Hurl).
  destruct (Hurl Hu) as (b & Hbr & Hurl'). exists b. split; [done|].
  unfold L10nMixin.getLocales. rewrite Hs. simpl. rewrite Hl, Hurl'.
  rewrite (pct_format_default _ _ _ _ Hr (Hb b Hbr) Hf). done.
Qed.

Lemma X6_default_url_fetched_witness :
  fetched
    (L10nMixin.getLocales
       (L10nMixin.mkSelf (Some "mozilla-central") "default"
          "https://hg.mozilla.org/mozilla-central/raw-file/%(revision)s/browser/locales/all-locales"
          None "osx")
       (Some "abc123") (world0 no_web)).2
  = [("https://hg.mozilla.org/mozilla-central/raw-file/abc123/browser/locales/all-locales",
      300)].
Proof.
  destruct (X6_default_url_fetched
              (L10nMixin.mkArgs "macosx" "https://hg.mozilla.org/"
                 (Some "mozilla-central") "default"
                 "browser/locales/all-locales" None None)
              (L10nMixin.mkSelf (Some "mozilla-central") "default"
                 "https://hg.mozilla.org/mozilla-central/raw-file/%(revision)s/browser/locales/all-locales"
                 None "osx")
              (Some "abc123") (world0 no_web))
    as (b & Hb & Hf).
  - reflexivity.
  - reflexivity.
  - reflexivity.
  - reflexivity.
  - intros b [= <-]. reflexivity.
  - reflexivity.
  - injection Hb as <-. exact Hf.
Defined.

(** ** The fan-out, build set by build set *)

Section FanOutExact.

Variable self : L10nMixin.self_t.
Variable properties : Properties.
Variable reason : option string.
Variable set_props : option Properties.

Lemma new_buildsets_cons first_id k ks :
  new_buildsets self properties reason set_props first_id (k :: ks)
  = mkBuildset first_id reason
      (L10nMixin.locale_props self properties set_props k)
    :: new_buildsets self properties reason set_props (S first_id) ks.
Proof. reflexivity. Qed.



Lemma new_buildsets_locales first_id ks :
  submitted_locales
    (new_buildsets self properties reason set_props first_id ks)
  = ks.
Proof.
  revert first_id. induction ks as [|k ks IH]; intros first_id; [done|].
  rewrite new_buildsets_cons. unfold submitted_locales in *. simpl.
  rewrite locale_props_locale. simpl. by rewrite IH.
Qed.

Lemma loop_body_skip w loc plats :
  L10nMixin.repacked self loc plats = false →
  L10nMixin.loop_body self properties reason set_props w (loc, plats) = w.
Proof. intros H. unfold L10nMixin.loop_body. by rewrite H. Qed.

Lemma loop_body_submit w loc plats :
  L10nMixin.repacked self loc plats = true →
  L10nMixin.loop_body self properties reason set_props w (loc, plats)
  = mkWorld (web w)
      (log w ++ [("Submitted " ++ loc ++ " locale")%string])
      (fetched w)
      (sourcestamps w ++ [mkSourceStamp (L10nMixin.branch self) None])
      (buildsets w
       ++ [mkBuildset (S (length (sourcestamps w))) reason
             (L10nMixin.locale_props self properties set_props loc)]).
Proof. intros H. unfold L10nMixin.loop_body. by rewrite H. Qed.

Lemma fold_loop_body_exact entries :
  ∀ w,
    let w' :=
      fold_left (L10nMixin.loop_body self properties reason set_props)
        entries w in
    let ks :=
      (List.filter (λ e, L10nMixin.repacked self e.1 e.2) entries).*1 in
    buildsets w'
    = (buildsets w
       ++ new_buildsets self properties reason set_props
            (S (length (sourcestamps w))) ks)%list
    ∧ sourcestamps w'
      = (sourcestamps w
         ++ replicate (length ks)
              (mkSourceStamp (L10nMixin.branch self) None))%list
    ∧ log w'
      = (log w
         ++ ((λ k, ("Submitted " ++ k ++ " locale")%string) <$> ks))%list
    ∧ fetched w' = fetched w.
Proof.
  induction entries as [|[loc plats] entries IH]; intros w.
  - simpl. by rewrite !app_nil_r.
  - cbn [fold_left List.filter fst snd].
    specialize (IH (L10nMixin.loop_body self properties reason set_props w
                      (loc, plats))).
    cbv zeta in IH |- *.
    destruct (L10nMixin.repacked self loc plats) eqn:Hr.
    + rewrite (loop_body_submit _ _ _ Hr) in IH |- *.
      simpl in IH. destruct IH as (Hb & Hs & Hl & Hf).
      rewrite fmap_cons, new_buildsets_cons. simpl.
      rewrite length_app, Nat.add_1_r in Hb.
      rewrite Hb, Hs, Hl, Hf, <- !(assoc_L (++)). done.
    + by rewrite (loop_body_skip _ _ _ Hr) in IH |- *.
Qed.

End FanOutExact.

(** X7: one run of the loop creates, for each locale it submits, one
    source stamp that carries the branch of the scheduler and no
    revision, and one build set that refers to that stamp and carries
    the reason of the call and the property set of the locale; it
    fetches nothing. *)
Theorem X7_one_stamp_per_build_set
    self properties locales reason set_props w :
  let w' := L10nMixin._cbLoadedLocales self properties locales reason
              set_props w in
  buildsets w'
  = (buildsets w
     ++ new_buildsets self properties reason set_props
          (S (length (sourcestamps w))) (kept self locales))%list
  ∧ sourcestamps w'
    = (sourcestamps w
       ++ replicate (length (kept self locales))
            (mkSourceStamp (L10nMixin.branch self) None))%list
  ∧ fetched w' = fetched w.
Proof.
  unfold L10nMixin._cbLoadedLocales.
  destruct (fold_loop_body_exact self properties reason set_props
              (map_to_list locales)
              (Host.log_msg "L10nMixin:: loaded locales' list" w))
    as (Hb & Hs & _ & Hf).
  by repeat split.
Qed.

(** ** createL10nBuilds, path by path *)

Section CreateBuilds.

Variable self : L10nMixin.self_t.
Variable properties : Properties.
Variable revision reason : option string.
Variable set_props : option Properties.




End CreateBuilds.



(** X9: a fetched page with a blank line aborts the whole fan-out: the
    Deferred fails with [IndexError] and nothing is submitted, not even
    for the lines before the blank one. *)
Theorem X9_blank_line_in_page_aborts
    self properties revision reason set_props w url page line :
  truthy_dict (L10nMixin.locales self) = false →
  pct_format (L10nMixin.localesURL self)
    (py_or revision (L10nMixin.baseTag self)) = Ok url →
  web w url = Ok page →
  line ∈ lines_of page →
  PyStr.all_space line = true →
  let r := L10nMixin.createL10nBuilds self properties revision reason
             set_props w in
  r.1 = Failed IndexError
  ∧ buildsets r.2 = buildsets w
  ∧ sourcestamps r.2 = sourcestamps w
  ∧ fetched r.2 = (fetched w ++ [(url, 300)])%list.
Proof.
  intros Hl Hu Hw Hin Hsp.
  assert (ParseLocalesFile page = Raise IndexError) as Hm.
  { apply parse_lines_blank, Exists_exists. exists line.
    split; [done|by apply split_nil_iff]. }
  unfold L10nMixin.createL10nBuilds, L10nMixin.getLocales.
  rewrite Hl, Hu. unfold Host.getPage. simpl. rewrite Hw. simpl.
  by rewrite Hm.
Qed.

Lemma X9_blank_line_in_page_aborts_witness :
  let r := L10nMixin.createL10nBuilds (ex_self None "osx") ∅ None None None
             (world0 blank_page) in
  r.1 = Failed IndexError ∧ buildsets r.2 = [].
Proof.
  destruct (X9_blank_line_in_page_aborts (ex_self None "osx") ∅ None None
              None (world0 blank_page) "http://h/default/all-locales"
              ("fr" ++ nl ++ nl ++ "de") EmptyString)
    as (H1 & H2 & _).
  - reflexivity.
  - reflexivity.
  - reflexivity.
  - vm_compute. right. left.
  - reflexivity.
  - split; [exact H1|exact H2].
Defined.

(** X10: when the URL template cannot be expanded (it names a key other
    than [revision], say), [createL10nBuilds] fails with that exception
    before any fetch, and submits nothing. *)
Theorem X10_bad_template_fetches_nothing
    self properties revision reason set_props w e :
  truthy_dict (L10nMixin.locales self) = false →
  pct_format (L10nMixin.localesURL self)
    (py_or revision (L10nMixin.baseTag self)) = Raise e →
  let r := L10nMixin.createL10nBuilds self properties revision reason
             set_props w in
  r.1 = Failed e
  ∧ fetched r.2 = fetched w
  ∧ buildsets r.2 = buildsets w
  ∧ sourcestamps r.2 = sourcestamps w.
Proof.
  intros Hl Hu.
  unfold L10nMixin.createL10nBuilds, L10nMixin.getLocales.
  by rewrite Hl, Hu.
Qed.

Lemma X10_bad_template_fetches_nothing_witness :
  let r := L10nMixin.createL10nBuilds bad_key_self ∅ None None None
             (world0 one_page) in
  r.1 = Failed (KeyError "rev") ∧ fetched r.2 = [].
Proof.
  destruct (X10_bad_template_fetches_nothing bad_key_self ∅ None None None
              (world0 one_page) (KeyError "rev"))
    as (H1 & H2 & _); [reflexivity..|].
  split; [exact H1|exact H2].
Defined.



(** ** createL10nBuilds on a database whose calls may raise *)

Section DbFaulty.

Variable F : DbFaults.
Variable self : L10nMixin.self_t.
Variable properties : Properties.
Variable reason : option string.
Variable set_props : option Properties.


End DbFaulty.


(** On a database whose calls never raise the two runs agree. *)
Lemma createL10nBuilds_no_faults
    self properties revision reason set_props w :
  L10nMixinDb.createL10nBuilds no_faults self properties revision reason
    set_props w
  = L10nMixin.createL10nBuilds self properties revision reason set_props w.
Proof.
  assert (∀ entries w0,
            L10nMixinDb.loop no_faults self properties reason set_props
              entries w0
            = (None,
               fold_left
                 (L10nMixin.loop_body self properties reason set_props)
                 entries w0)) as Hloop.
  { induction entries as [|[loc plats] entries IH]; intros w0; [done|].
    cbn [L10nMixinDb.loop fold_left].
    unfold L10nMixinDb.loop_body, L10nMixin.loop_body.
    destruct (L10nMixin.repacked self loc plats); simpl; apply IH. }
  unfold L10nMixinDb.createL10nBuilds, L10nMixin.createL10nBuilds.
  destruct (L10nMixin.getLocales self revision _) as [r w1].
  destruct (L10nMixin.maybeDeferred r) as [m|e]; [|done]. simpl.
  unfold L10nMixinDb.runInteraction_cb, L10nMixinDb._cbLoadedLocales,
    L10nMixin.runInteraction_cb, L10nMixin._cbLoadedLocales.
  by rewrite Hloop.
Qed.




(** ** Properties and platforms *)

(** X14: a property other than [locale], [en_revision] and
    [l10n_revision] reaches the build set as [set_props] has it or, when
    [set_props] does not have it, as [self.properties] has it. *)
Theorem X14_other_properties_pass_through
    self properties set_props locale k :
  k ≠ "locale" → k ≠ "en_revision" → k ≠ "l10n_revision" →
  L10nMixin.locale_props self properties set_props locale !! k
  = match set_props ≫= (λ sp : Properties, sp !! k) with
    | Some v => Some v
    | None => properties !! k
    end.
Proof.
  intros H1 H2 H3.
  unfold L10nMixin.locale_props, Host.setProperty, Host.update,
    Host.updateFromProperties.
  rewrite !lookup_insert_ne by done.
  rewrite lookup_union_r
    by (rewrite lookup_fmap, lookup_singleton_ne; done).
  rewrite (right_id_L ∅ (∪)).
  destruct set_props as [sp|]; simpl; [|done].
  destruct (sp !! k) as [v|] eqn:Hk.
  - by apply lookup_union_Some_l.
  - by apply lookup_union_r.
Qed.

Lemma X14_other_properties_pass_through_witness :
  L10nMixin.locale_props (ex_self None "osx")
    (<["buildid" := ("1", "Scheduler")]> {["slow" := ("no", "Scheduler")]})
    (Some {["buildid" := ("2", "Trigger")]}) "fr" !! "buildid"
  = Some ("2", "Trigger").
Proof.
  rewrite (X14_other_properties_pass_through (ex_self None "osx")
             (<["buildid" := ("1", "Scheduler")]>
                {["slow" := ("no", "Scheduler")]})
             (Some {["buildid" := ("2", "Trigger")]}) "fr" "buildid");
    [reflexivity|discriminate..].
Defined.

(** X15: restriction tokens are compared as written with the normalized
    platform of the scheduler, so a locale restricted only to names that
    no scheduler can hold ([linux64], [macosx], [macosx64], ...) is
    never built by a constructed scheduler. *)
Theorem X15_unnormalized_restriction_never_built
    a self properties locales reason set_props w new loc plats :
  L10nMixin.__init__ a = Ok self →
  locales !! loc = Some plats →
  plats ≠ [] →
  (∀ p, p ∈ plats → p ∉ normalized_platforms) →
  buildsets (L10nMixin._cbLoadedLocales self properties locales reason
               set_props w)
  = (buildsets w ++ new)%list →
  loc ∉ submitted_locales new.
Proof.
  intros Hi Hl Hne Hp Hb.
  destruct (cbLoadedLocales_buildsets self properties reason set_props
              locales w) as (new' & Hb' & Hprops & _).
  rewrite Hb in Hb'. apply app_inv_head in Hb'. subst new'.
  rewrite (submitted_locales_props _ _ _ _ _ Hprops).
  intros (plats' & Hl' & _ & Hor)%elem_of_kept.
  rewrite Hl in Hl'. injection Hl' as <-.
  destruct Hor as [Hnil|Hin]; [done|].
  apply (Hp _ Hin). by eapply init_platform_normalized.
Qed.

Lemma X15_unnormalized_restriction_never_built_witness :
  "ja-JP-mac"
  ∉ submitted_locales
      (buildsets
         (L10nMixin._cbLoadedLocales (ex_self None "osx") ∅
            {["ja-JP-mac" := ["macosx"]]} None None (world0 no_web))).
Proof.
  apply (X15_unnormalized_restriction_never_built
           (ex_args None "macosx64") (ex_self None "osx") ∅
           {["ja-JP-mac" := ["macosx"]]} None None (world0 no_web)
           _ "ja-JP-mac" ["macosx"]).
  - reflexivity.
  - reflexivity.
  - discriminate.
  - intros p ->%list_elem_of_singleton.
    apply (bool_decide_unpack _). by vm_compute.
  - reflexivity.
Defined.
